(** * Wide-to-long reshaping and aggregation of the ENDE dashboards

    A shallow embedding of the data pipeline of the Streamlit pages under
    [pages/]: [energia.py], [potencia.py], [potencia_distribuidoras.py],
    [precio_potencia.py] and [precios_peaje_distribucion.py].

    Conventions of the embedding.
    - A Python [str] is a Rocq [string], read as the UTF-8 bytes of the
      text.  Python's whitespace and digit classes are modelled on their
      ASCII members only.
    - A [datetime] / [pd.Timestamp] is a record of integers compared
      lexicographically; [NaT] is [None].
    - A float64 cell is an exact rational ([Q]); [NaN] is the absence of a
      value.  Rounding and overflow of binary floating point are not
      modelled; the results of a division keep the IEEE special values.
    - A [dict] is a [gmap]; a data frame is a list of records. *)

From Stdlib Require Import ZArith QArith Qcanon Qround Qabs String Ascii List Lia Bool.
From stdpp Require Import gmap strings list sorting pretty.

Local Open Scope string_scope.
Local Open Scope Z_scope.

(** ** Python strings *)

Module PyStr.

(** [str.isspace] on one ASCII character. *)
Definition is_space (c : ascii) : bool :=
  let n := nat_of_ascii c in
  Nat.eqb n 32 || (Nat.leb 9 n && Nat.leb n 13) || (Nat.leb 28 n && Nat.leb n 31).

(** [s.lstrip()], [s.rstrip()], [s.strip()]. *)
Fixpoint lstrip (s : string) : string :=
  match s with
  | EmptyString => EmptyString
  | String c s' => if is_space c then lstrip s' else s
  end.

Fixpoint rstrip (s : string) : string :=
  match s with
  | EmptyString => EmptyString
  | String c s' =>
      match rstrip s' with
      | EmptyString => if is_space c then EmptyString else String c EmptyString
      | t => String c t
      end
  end.

Definition strip (s : string) : string := rstrip (lstrip s).

(** [s.split()]: the maximal runs of non-whitespace characters.
    [word] is the run being read. *)
Fixpoint split_from (s : string) (word : string) : list string :=
  match s with
  | EmptyString => if String.eqb word "" then [] else [word]
  | String c s' =>
      if is_space c
      then (if String.eqb word "" then split_from s' ""
            else word :: split_from s' "")
      else split_from s' (word ++ String c "")
  end.

Definition split (s : string) : list string := split_from s "".

(** [xs[-1]]; [None] stands for [IndexError]. *)
Definition last_item {A} (xs : list A) : option A := List.last (List.map Some xs) None.

(** [needle in hay]. *)
Fixpoint contains (needle hay : string) : bool :=
  String.prefix needle hay ||
  match hay with
  | EmptyString => false
  | String _ hay' => contains needle hay'
  end.

(** Slices with non-negative bounds: [s[:n]], [s[n:]], [s[a:b]]. *)
Fixpoint slice_to (n : nat) (s : string) : string :=
  match n, s with
  | S n', String c s' => String c (slice_to n' s')
  | _, _ => EmptyString
  end.

Fixpoint slice_from (n : nat) (s : string) : string :=
  match n, s with
  | S n', String _ s' => slice_from n' s'
  | _, _ => s
  end.

Definition slice (a b : nat) (s : string) : string :=
  slice_from a (slice_to b s).

(** [s.replace(c, '')] for a one-character [c]. *)
Fixpoint remove_char (c : ascii) (s : string) : string :=
  match s with
  | EmptyString => EmptyString
  | String d s' => if Ascii.eqb c d then remove_char c s' else String d (remove_char c s')
  end.

Definition is_digit (c : ascii) : bool :=
  Nat.leb 48 (nat_of_ascii c) && Nat.leb (nat_of_ascii c) 57.

Definition digit_value (c : ascii) : Z := Z.of_nat (nat_of_ascii c) - 48.

(** The digit part of an integer literal: digits, with single
    underscores allowed between two digits.  [prev] tells whether the
    previous character was a digit. *)
Fixpoint int_digits (s : string) (acc : Z) (prev : bool) : option Z :=
  match s with
  | EmptyString => if prev then Some acc else None
  | String c s' =>
      if is_digit c then int_digits s' (10 * acc + digit_value c) true
      else if Ascii.eqb c "_"
           then (if prev then int_digits s' acc false else None)
           else None
  end.

(** [int(s)]; [None] stands for [ValueError]. *)
Definition int (s : string) : option Z :=
  match strip s with
  | EmptyString => None
  | String c s' =>
      if Ascii.eqb c "+" then int_digits s' 0 false
      else if Ascii.eqb c "-" then Z.opp <$> int_digits s' 0 false
      else int_digits (String c s') 0 false
  end.



(** Zero-padded decimal fields of [strftime]. *)
Definition digit_char (d : Z) : ascii := ascii_of_nat (48 + Z.to_nat (d mod 10)).

Definition pad2 (n : Z) : string :=
  String (digit_char (n / 10)) (String (digit_char n) "").

Definition pad4 (n : Z) : string :=
  String (digit_char (n / 1000)) (String (digit_char (n / 100))
    (String (digit_char (n / 10)) (String (digit_char n) ""))).

End PyStr.

(** ** Dates *)

Module Dates.

(** [datetime.datetime]; [tod] is the time of day in microseconds. *)
Record datetime := mk_datetime { year : Z; month : Z; day : Z; tod : Z }.

#[global] Instance datetime_eq_dec : EqDecision datetime.
Proof. solve_decision. Defined.

Definition MINYEAR : Z := 1.
Definition MAXYEAR : Z := 9999.

Definition is_leap (y : Z) : bool :=
  (y mod 4 =? 0) && (negb (y mod 100 =? 0) || (y mod 400 =? 0)).

Definition days_in_month (y m : Z) : Z :=
  if m =? 2 then (if is_leap y then 29 else 28)
  else if (m =? 4) || (m =? 6) || (m =? 9) || (m =? 11) then 30 else 31.

(** The constructor [datetime(y, m, d)]; [None] stands for [ValueError]. *)
Definition make (y m d : Z) : option datetime :=
  if (MINYEAR <=? y) && (y <=? MAXYEAR) && (1 <=? m) && (m <=? 12)
     && (1 <=? d) && (d <=? days_in_month y m)
  then Some (mk_datetime y m d 0) else None.

(** [dt.replace(year=y, month=m)]. *)
Definition replace (dt : datetime) (y m : Z) : option datetime :=
  if (MINYEAR <=? y) && (y <=? MAXYEAR) && (1 <=? m) && (m <=? 12)
     && (1 <=? day dt) && (day dt <=? days_in_month y m)
  then Some (mk_datetime y m (day dt) (tod dt)) else None.

(** [a <= b] on naive datetimes. *)
Definition leb (a b : datetime) : bool :=
  (year a <? year b) ||
  ((year a =? year b) &&
   ((month a <? month b) ||
    ((month a =? month b) &&
     ((day a <? day b) ||
      ((day a =? day b) && (tod a <=? tod b)))))).

Definition le (a b : datetime) : Prop := leb a b = true.

#[global] Instance le_dec : RelDecision le.
Proof. intros a b. unfold le. apply _. Defined.

Definition first_of_month (dt : datetime) : Prop := day dt = 1 /\ tod dt = 0.

(** The values [datetime.today()] can take; a day has 86400000000
    microseconds. *)
Definition valid (dt : datetime) : Prop :=
  MINYEAR <= year dt <= MAXYEAR /\ 1 <= month dt <= 12 /\
  1 <= day dt <= days_in_month (year dt) (month dt) /\ 0 <= tod dt < 86400000000.

(** The months count from year 0. *)
Definition month_index (dt : datetime) : Z := 12 * year dt + (month dt - 1).

(** [strftime('%m%Y')] and [strftime('%m%y')], for years of four digits. *)
Definition strftime_mY (dt : datetime) : string :=
  PyStr.pad2 (month dt) ++ PyStr.pad4 (year dt).

Definition strftime_my (dt : datetime) : string :=
  PyStr.pad2 (month dt) ++ PyStr.pad2 (year dt mod 100).

End Dates.

Import Dates.

(** ** Outcome of a Python computation *)

(** An exception of class [Exception], by the statement that raises it. *)
Inductive exn :=
| ValueError | KeyError | IndexError | TypeError | OtherError (msg : string).

(** [Raised e]: the computation raised [e].  [OutOfFuel]: the bound given
    to a loop of the model was too small; no Python run corresponds to it. *)
Inductive outcome (A : Type) :=
| Done (a : A) | Raised (e : exn) | OutOfFuel.
Arguments Done {A} a.
Arguments Raised {A} e.
Arguments OutOfFuel {A}.

#[global] Instance outcome_ret : MRet outcome := fun A a => Done a.

#[global] Instance outcome_bind : MBind outcome := fun A B f x =>
  match x with
  | Done a => f a
  | Raised e => Raised e
  | OutOfFuel => OutOfFuel
  end.

#[global] Instance outcome_fmap : FMap outcome := fun A B f x =>
  match x with
  | Done a => Done (f a)
  | Raised e => Raised e
  | OutOfFuel => OutOfFuel
  end.

Definition or_raise {A} (e : exn) (o : option A) : outcome A :=
  match o with Some a => Done a | None => Raised e end.

(** ** Period parser *)

Module Period.

(** The loop that fills [date_mapping]:
<<
    while current_date <= end_date:
        date_mapping[key] = value
        (next month)
>>
    [fmt] is the key format; the value, the text [%Y-%m-01] that
    [pd.to_datetime] reads back, is kept as the date itself. *)
Fixpoint fill (fuel : nat) (fmt : datetime -> string) (end_date current_date : datetime)
    (date_mapping : gmap string datetime) : outcome (gmap string datetime) :=
  match fuel with
  | O => OutOfFuel
  | S fuel' =>
      if Dates.leb current_date end_date then
        let date_mapping' :=
          <[fmt current_date := mk_datetime (year current_date) (month current_date) 1 0]>
            date_mapping in
        next ← or_raise ValueError
                 (if month current_date =? 12
                  then Dates.replace current_date (year current_date + 1) 1
                  else Dates.replace current_date (year current_date) (month current_date + 1));
        fill fuel' fmt end_date next date_mapping'
      else Done date_mapping
  end.

(** Number of iterations that suffices from [current_date] to [end_date]. *)
Definition fuel_for (end_date current_date : datetime) : nat :=
  S (Z.to_nat (12 * (year end_date - year current_date)
               + (month end_date - month current_date) + 1)).

Definition start_date : datetime := mk_datetime 2023 1 1 0.

(** [energia.py], [potencia.py], [potencia_distribuidoras.py]:
    keys [%m%Y] from January 2023 to December 2025. *)
Definition end_date_fixed : datetime := mk_datetime 2025 12 1 0.

Definition date_mapping_mY : outcome (gmap string datetime) :=
  fill (fuel_for end_date_fixed start_date) strftime_mY end_date_fixed start_date ∅.

(** [precio_potencia.py]: keys [%m%y] from January 2023 to
    [datetime.today()]. *)
Definition date_mapping_my (today : datetime) : outcome (gmap string datetime) :=
  fill (fuel_for today start_date) strftime_my today start_date ∅.

(** [date_mapping.get(period[:2] + period[2:], pd.NaT)]. *)
Definition formatted_period (period : string) : string :=
  PyStr.slice_to 2 period ++ PyStr.slice_from 2 period.

Definition lookup_mY (date_mapping : gmap string datetime) (period : string) : option datetime :=
  date_mapping !! formatted_period period.

(** [date_mapping.get(period, pd.NaT)]. *)
Definition lookup_my (date_mapping : gmap string datetime) (period : string) : option datetime :=
  date_mapping !! period.

(** [precios_peaje_distribucion.py]: the month and year fields are cut
    by the length of the code.  [Skip] is the [continue] of an unknown
    length, [Warn] the [continue] of the [except] branch. *)
Inductive peaje_result := Date (d : datetime) | Skip | Warn.

(** The month and year fields, each as [int] reads it; [None] when
    the length is neither 5 nor 6. *)
Definition peaje_fields (period_code : string) : option (option Z * option Z) :=
  if Nat.eqb (String.length period_code) 5 then
    Some (PyStr.int (PyStr.slice 0 1 period_code), PyStr.int (PyStr.slice 1 5 period_code))
  else if Nat.eqb (String.length period_code) 6 then
    Some (PyStr.int (PyStr.slice 0 2 period_code), PyStr.int (PyStr.slice 2 6 period_code))
  else None.

Definition parse_peaje (period_code : string) : peaje_result :=
  match peaje_fields period_code with
  | None => Skip
  | Some (Some month, Some year) =>
      match Dates.make year month 1 with
      | Some date => Date date
      | None => Warn
      end
  | Some _ => Warn
  end.

Definition peaje_date (period_code : string) : option datetime :=
  match parse_peaje period_code with Date d => Some d | _ => None end.

End Period.

(** ** Frames *)

Module Frame.

(** A cell of an identity column: a name, or [None] for a blank cell. *)
Definition name := option string.

(** A cell of a measurement column as [pd.read_excel] returns it. *)
Inductive cell := Blank | Num (q : Qc) | Text (s : string).

(** The workbook after [pd.read_excel].  [AGENTE_col] and [EMPRESA_col]
    are the columns whose stripped header is [AGENTE] and [EMPRESA]
    ([None]: the workbook has no such column); [value_cols] are the other
    columns with their headers as written in the workbook.  Every column
    has [nrows] cells; a position past the end of a list reads as blank. *)
Record DataFrame := mk_frame {
  nrows : nat;
  AGENTE_col : option (list name);
  EMPRESA_col : option (list name);
  value_cols : list (string * list cell)
}.

(** One row of the long table; [V] is the type of the measurement
    column.  The column that keeps the wide header of the row is left
    out: nothing reads it. *)
Record LongRecord (V : Type) := mk_long {
  AGENTE : name;
  EMPRESA : name;
  FECHA : option datetime;
  value : V;
  Periodo : string
}.
Arguments mk_long {V} _ _ _ _ _.
Arguments AGENTE {V} _.
Arguments EMPRESA {V} _.
Arguments FECHA {V} _.
Arguments value {V} _.
Arguments Periodo {V} _.

(** [df.empty] *)
Definition empty (df : DataFrame) : bool :=
  Nat.eqb (nrows df) 0 ||
  (bool_decide (AGENTE_col df = None) && bool_decide (EMPRESA_col df = None)
   && bool_decide (value_cols df = [])).

(** [df.columns = df.columns.str.strip()] *)
Definition strip_columns (df : DataFrame) : DataFrame :=
  mk_frame (nrows df) (AGENTE_col df) (EMPRESA_col df)
           (prod_map PyStr.strip id <$> value_cols df).

(** [[col for col in df.columns if label in col]] *)
Definition columns_with (label : string) (df : DataFrame) : list string :=
  filter (fun col => PyStr.contains label col = true) (fst <$> value_cols df).

(** The cells that [temp_df[col]] assigns to one column: the selection
    by name holds every column of that name, and assigning more than one
    to a single column raises. *)
Definition column (df : DataFrame) (col : string) : outcome (list cell) :=
  match filter (fun hc => hc.1 = col) (value_cols df) with
  | [hc] => Done hc.2
  | [] => Raised KeyError
  | _ => Raised ValueError
  end.

(** [df[['AGENTE', 'EMPRESA', col]]]: [KeyError] when an identity column
    is missing. *)
Definition identity (df : DataFrame) : outcome (list name * list name) :=
  match AGENTE_col df, EMPRESA_col df with
  | Some a, Some e => Done (a, e)
  | _, _ => Raised KeyError
  end.

(** The partial frame of one measurement column: a row per row of the
    workbook, with the scalars [fecha] and [period] repeated. *)
Definition temp_df {V} (df : DataFrame) (ids : list name * list name) (vals : list V) (blank : V)
    (fecha : option datetime) (period : string) : list (LongRecord V) :=
  (fun i => mk_long (default None (ids.1 !! i)) (default None (ids.2 !! i))
                    fecha (default blank (vals !! i)) period) <$> seq 0 (nrows df).

(** The cells of an identity column, row by row. *)
Definition row_names (df : DataFrame) (col : list name) : list name :=
  (fun i => default None (col !! i)) <$> seq 0 (nrows df).

(** The key of the invariant of the long table. *)
Definition agente_fecha {V} (r : LongRecord V) : name * option datetime :=
  (AGENTE r, FECHA r).

End Frame.

Import Frame.

(** ** Reshaping: the loaders *)

Module Reshape.

(** [pd.concat(dfs)]: [ValueError] when there is nothing to concatenate. *)
Definition pd_concat {A} (dfs : list (list A)) : outcome (list A) :=
  match dfs with
  | [] => Raised ValueError
  | _ => Done (concat dfs)
  end.

(** [df[df['FECHA'].notna()]] *)
Definition fecha_notna {V} (df : list (LongRecord V)) : list (LongRecord V) :=
  filter (fun r => FECHA r ≠ None) df.

(** [col.split()[-1]], the period code of a header. *)
Definition period_of (col : string) : option string :=
  PyStr.last_item (PyStr.split col).

(** The transformation of [energia.py], [potencia.py] and
    [precio_potencia.py], from the stripping of the headers to the
    [return]. [date_mapping] is the loop that fills the dictionary and
    [get] the lookup of a period in it. *)
Definition transform_mapping (label : string)
    (date_mapping : outcome (gmap string datetime))
    (get : gmap string datetime -> string -> option datetime)
    (df : DataFrame) : outcome (list (LongRecord cell)) :=
  let df := strip_columns df in
  let price_columns := columns_with label df in
  date_mapping ← date_mapping;
  dfs ← mapM (fun col =>
                period ← or_raise IndexError (period_of col);
                ids ← identity df;
                cells ← column df col;
                mret (temp_df df ids cells Blank (get date_mapping period) period))
             price_columns;
  transformed_df ← pd_concat dfs;
  mret (fecha_notna transformed_df).

(** The date a header gets on the mapping pages. *)
Definition fecha_mapping (date_mapping : gmap string datetime)
    (get : gmap string datetime -> string -> option datetime) (col : string) :
    option datetime :=
  period ← period_of col; get date_mapping period.

(** The date a header gets on the toll page. *)
Definition fecha_peaje (col : string) : option datetime :=
  code ← period_of col; Period.peaje_date (PyStr.strip code).

Definition label_energia : string := "Energía MWh".
Definition label_potencia : string := "Potencia kW".
Definition label_precio_potencia : string := "Precio Potencia US$/kW".
Definition label_peaje : string := "Peaje generación USD/MWh".

Definition transform_energia : DataFrame -> outcome (list (LongRecord cell)) :=
  transform_mapping label_energia Period.date_mapping_mY Period.lookup_mY.

Definition transform_potencia : DataFrame -> outcome (list (LongRecord cell)) :=
  transform_mapping label_potencia Period.date_mapping_mY Period.lookup_mY.

Definition transform_precio_potencia (today : datetime) :
    DataFrame -> outcome (list (LongRecord cell)) :=
  transform_mapping label_precio_potencia (Period.date_mapping_my today) Period.lookup_my.

Section Peaje.

(** [pd.to_numeric(text, errors='coerce')] on one text: the number
    read, or [None] for what does not parse (and for a parsed NaN).
    The parser belongs to pandas and is a parameter here. *)
Variable to_numeric : string -> option Qc.

(** [pd.to_numeric(temp_df[col].astype(str).str.replace(',', ''),
    errors='coerce')] on one cell.  A number is written by [str] and
    read back unchanged; a blank cell is written as [nan]. *)
Definition coerce (c : cell) : option Qc :=
  match c with
  | Num q => Some q
  | Blank => None
  | Text s => to_numeric (PyStr.remove_char "," s)
  end.

(** One turn of the loop over [price_columns]: [None] is a
    [continue]. *)
Definition peaje_column (df : DataFrame) (col : string) :
    outcome (option (list (LongRecord (option Qc)))) :=
  period_code ← PyStr.strip <$> or_raise IndexError (period_of col);
  match Period.parse_peaje period_code with
  | Period.Skip | Period.Warn => mret None
  | Period.Date date =>
      ids ← identity df;
      cells ← column df col;
      mret (Some (temp_df df ids (coerce <$> cells) None (Some date) period_code))
  end.

(** [transformed_df.dropna(subset=['FECHA', label])] *)
Definition dropna (df : list (LongRecord (option Qc))) : list (LongRecord (option Qc)) :=
  filter (fun r => FECHA r ≠ None ∧ value r ≠ None) df.

(** The transformation of [precios_peaje_distribucion.py]; the inner
    [None] is the [return None] taken when no column was processed. *)
Definition transform_peaje (df : DataFrame) :
    outcome (option (list (LongRecord (option Qc)))) :=
  let df := strip_columns df in
  let price_columns := columns_with label_peaje df in
  dfs ← omap id <$> mapM (peaje_column df) price_columns;
  match dfs with
  | [] => mret None
  | _ =>
      transformed_df ← pd_concat dfs;
      mret (Some (dropna transformed_df))
  end.

End Peaje.

End Reshape.

(** ** Filtering and aggregation *)

Module Aggregate.

Local Open Scope Qc_scope.

(** A long table whose measurement column is of dtype float64;
    [None] is NaN. *)
Abbreviation table := (list (LongRecord (option Qc))).

(** The measurement column of the mapping pages holds the cells of the
    workbook unchanged.  It is of dtype float64 when no cell is a text;
    the numeric aggregates are modelled on such columns only. *)
Definition as_float (c : cell) : option (option Qc) :=
  match c with
  | Blank => Some None
  | Num q => Some (Some q)
  | Text _ => None
  end.

Definition float_table (df : list (LongRecord cell)) : option table :=
  mapM (fun r => v ← as_float (value r);
                 Some (mk_long (AGENTE r) (EMPRESA r) (FECHA r) v (Periodo r))) df.

(** [df[(df['FECHA'] >= start) & (df['FECHA'] <= end)]]; a comparison
    with NaT is false. *)
Definition in_range (start end_ : datetime) (fecha : option datetime) : bool :=
  match fecha with
  | Some d => Dates.leb start d && Dates.leb d end_
  | None => false
  end.

Definition date_filter {V} (start end_ : datetime) (df : list (LongRecord V)) :
    list (LongRecord V) :=
  filter (fun r => in_range start end_ (FECHA r)) df.

(** [df[df['EMPRESA'] == selected_empresa]] and
    [df[df['AGENTE'] == selected_agente]] *)
Definition of_empresa {V} (selected : string) (df : list (LongRecord V)) :=
  filter (fun r => EMPRESA r = Some selected) df.

Definition of_agente {V} (selected : string) (df : list (LongRecord V)) :=
  filter (fun r => AGENTE r = Some selected) df.

(** [Series.unique()]: the values in the order of their first
    appearance. *)
Fixpoint unique {K} `{EqDecision K} (l : list K) : list K :=
  match l with
  | [] => []
  | x :: l' => x :: filter (fun y => y ≠ x) (unique l')
  end.

(** The orders of the group keys. *)
Definition name_le (a b : string) : Prop := String.leb a b = true.

Definition fecha_empresa_le (a b : datetime * string) : Prop :=
  Dates.le a.1 b.1 ∧ (a.1 = b.1 → name_le a.2 b.2).

#[global] Instance name_le_dec : RelDecision name_le.
Proof. intros a b. unfold name_le. apply _. Defined.

#[global] Instance fecha_empresa_le_dec : RelDecision fecha_empresa_le.
Proof. intros a b. unfold fecha_empresa_le. apply _. Defined.

(** [df.groupby(key, sort=...)]: the keys, and the rows of each key.  A
    row whose key is missing belongs to no group. *)
Definition groupby {A K} `{EqDecision K} (sort_keys : list K -> list K)
    (key : A -> option K) (df : list A) : list (K * list A) :=
  (fun k => (k, filter (fun r => key r = Some k) df)) <$> sort_keys (unique (omap key df)).

Definition by_fecha {V} (r : LongRecord V) : option datetime := FECHA r.


Definition by_fecha_empresa {V} (r : LongRecord V) : option (datetime * string) :=
  d ← FECHA r; e ← EMPRESA r; Some (d, e).

(** The reductions of a float64 column; NaN is skipped. *)
Definition values (g : table) : list Qc := omap value g.

Definition sum (xs : list Qc) : Qc := foldr Qcplus 0 xs.

Definition mean (xs : list Qc) : option Qc :=
  match xs with
  | [] => None
  | _ => Some (sum xs / Q2Qc (inject_Z (Z.of_nat (length xs))))
  end.

Definition minimum (xs : list Qc) : option Qc :=
  match xs with
  | [] => None
  | x :: xs' => Some (foldr (fun a b => if decide (a ≤ b) then a else b) x xs')
  end.

Definition maximum (xs : list Qc) : option Qc :=
  match xs with
  | [] => None
  | x :: xs' => Some (foldr (fun a b => if decide (b ≤ a) then a else b) x xs')
  end.

(** [numpy.round(x, 2)]: to the nearest hundredth, ties to even. *)
Definition round_half_even (q : Q) : Z :=
  let f := Qfloor q in
  match Qcompare (q - inject_Z f) (1 # 2) with
  | Lt => f
  | Gt => (f + 1)%Z
  | Eq => if Z.even f then f else (f + 1)%Z
  end.

Definition round2 (x : Qc) : Qc :=
  Q2Qc (inject_Z (round_half_even (x * 100)%Q) / 100).

(** *** Series of the pages *)

(** [energia.py]: [df_empresa.groupby(['FECHA', 'EMPRESA'])[label].sum()] *)
Definition df_empresa_sum (selected_empresa : string) (df_filtered : table) :
    list ((datetime * string) * Qc) :=
  prod_map id (fun g => sum (values g))
    <$> groupby (merge_sort fecha_empresa_le) by_fecha_empresa
          (of_empresa selected_empresa df_filtered).

(** [energia.py]: [df_filtered.groupby('FECHA')[label].sum()], then
    [round(2)] on the column. *)
Definition groupby_fecha_sum (df_filtered : table) : list (datetime * Qc) :=
  prod_map id (fun g => sum (values g)) <$> groupby (merge_sort Dates.le) by_fecha df_filtered.

Definition df_sistema_sum (df_filtered : table) : list (datetime * Qc) :=
  prod_map id round2 <$> groupby_fecha_sum df_filtered.




(** *** Participation ([potencia_distribuidoras.py]) *)

(** The result of a float64 division: the special values of IEEE 754
    are kept, the sign of zero is not. *)
Inductive float64 := Finite (q : Qc) | Inf (negative : bool) | NaN.

#[global] Instance float64_eq_dec : EqDecision float64.
Proof. solve_decision. Defined.

Definition negative (q : Qc) : bool := bool_decide (q < 0).











(** The order of float64 values that are not NaN. *)
Definition fle (a b : float64) : Prop :=
  match a, b with
  | Inf true, _ | _, Inf false => True
  | Finite x, Finite y => x ≤ y
  | _, _ => False
  end.

(** [df.sort_values(by=..., ascending=False)]: pandas sorts with the
    default [kind='quicksort'], which promises no order among equal keys,
    and puts NaN last.  The call is modelled by what it promises: [out]
    holds the rows of [df], the keys that are not NaN come first in
    descending order. *)
Definition desc_nan_last (x y : float64) : Prop :=
  y = NaN ∨ (x ≠ NaN ∧ fle y x).











End Aggregate.

(** ** The cached loader and the start of a page *)

Module Loader.

Import Reshape.

(** What the loader reads from its environment. *)
Record Env := mk_env {
  base_path_exists : bool;
  file_path_exists : bool;
  read_excel : exn + DataFrame;
  today : datetime
}.

(** [pd.read_excel(file_path, engine="openpyxl")] *)
Definition pd_read_excel (env : Env) : outcome DataFrame :=
  match read_excel env with
  | inl e => Raised e
  | inr df => Done df
  end.

(** [try: ... except Exception: return None] *)
Definition try_except {A} (body : outcome (option A)) : outcome (option A) :=
  match body with
  | Raised _ => Done None
  | o => o
  end.

(** [energia.py], [potencia.py] *)
Definition load_and_transform_data_energia (env : Env) :
    outcome (option (list (LongRecord cell))) :=
  try_except
    (if negb (base_path_exists env) then mret None
     else if negb (file_path_exists env) then mret None
     else
       df ← pd_read_excel env;
       if Frame.empty df then mret None
       else Some <$> transform_energia df).

(** [precios_peaje_distribucion.py] *)
Definition load_and_transform_data_peaje (to_numeric : string -> option Qc) (env : Env) :
    outcome (option (list (LongRecord (option Qc)))) :=
  try_except
    (if negb (file_path_exists env) then mret None
     else
       df ← pd_read_excel env;
       if Frame.empty df then mret None
       else transform_peaje to_numeric df).

(** [df = load_and_transform_data()], [if df is None: st.stop()] *)
Inductive page (A : Type) := Stopped | Running (df : A).
Arguments Stopped {A}.
Arguments Running {A} df.

Definition start_page {A} (loaded : option A) : page A :=
  match loaded with
  | None => Stopped
  | Some df => Running df
  end.

End Loader.

(** ** The other loaders, the sidebar and the metrics *)

Module Pages.

Import Reshape Aggregate Loader.

Local Open Scope Qc_scope.

(** [potencia.py]: the loader of [energia.py] with the label
    [Potencia kW]. *)
Definition load_and_transform_data_potencia (env : Env) :
    outcome (option (list (LongRecord cell))) :=
  try_except
    (if negb (base_path_exists env) then mret None
     else if negb (file_path_exists env) then mret None
     else
       df ← pd_read_excel env;
       if Frame.empty df then mret None
       else Some <$> transform_potencia df).

(** [precio_potencia.py]: only the workbook is looked for; the
    dictionary of dates runs to [datetime.today()]. *)
Definition load_and_transform_data_precio_potencia (env : Env) :
    outcome (option (list (LongRecord cell))) :=
  try_except
    (if negb (file_path_exists env) then mret None
     else
       df ← pd_read_excel env;
       if Frame.empty df then mret None
       else Some <$> transform_precio_potencia (today env) df).

(** [df['FECHA'].min()] and [df['FECHA'].max()]: NaT is skipped, and is
    the result on a column without a date. *)
Definition fecha_min {V} (df : list (LongRecord V)) : option datetime :=
  match omap FECHA df with
  | [] => None
  | d :: ds => Some (foldr (fun a b => if Dates.leb a b then a else b) d ds)
  end.

Definition fecha_max {V} (df : list (LongRecord V)) : option datetime :=
  match omap FECHA df with
  | [] => None
  | d :: ds => Some (foldr (fun a b => if Dates.leb b a then a else b) d ds)
  end.

(** The default value of the slider, [(min_date, max_date)]. *)
Definition slider_default {V} (df : list (LongRecord V)) : option (datetime * datetime) :=
  min_date ← fecha_min df; max_date ← fecha_max df; Some (min_date, max_date).

(** [energia.py], [potencia.py], [potencia_distribuidoras.py]: the
    table is filtered by the range of the slider when it is not empty. *)
Definition df_filtered {V} (selected_range : datetime * datetime) (df : list (LongRecord V)) :
    list (LongRecord V) :=
  match df with
  | [] => df
  | _ => date_filter selected_range.1 selected_range.2 df
  end.

(** [df_filtered['EMPRESA'].unique()]: NaN is one of the values. *)
Definition empresas {V} (df : list (LongRecord V)) : list name :=
  unique (EMPRESA <$> df).

(** [df[df['EMPRESA'] == selected]] for a selection of the select box:
    no cell equals NaN, and none equals the [None] of a box without
    options. *)
Definition rows_of_empresa {V} (selected : name) (df : list (LongRecord V)) :
    list (LongRecord V) :=
  match selected with
  | Some e => of_empresa e df
  | None => []
  end.

Definition rows_of_agente {V} (selected : name) (df : list (LongRecord V)) :
    list (LongRecord V) :=
  match selected with
  | Some a => of_agente a df
  | None => []
  end.

(** [df_filtered[df_filtered['EMPRESA'] == selected_empresa]['AGENTE'].unique()] *)
Definition agentes_disponibles {V} (selected_empresa : name) (df : list (LongRecord V)) :
    list name :=
  unique (AGENTE <$> rows_of_empresa selected_empresa df).

(** [energia.py], [potencia.py]: the metric of the system on the first
    tab is the mean of the rounded series; the three metrics of the second
    tab are taken on the series as [groupby('FECHA').sum()] returns it. *)
Definition promedio_sistema (df_filtered : table) : option Qc :=
  mean (snd <$> df_sistema_sum df_filtered).

Definition minimo_sistema_tab2 (df_filtered : table) : option Qc :=
  minimum (snd <$> groupby_fecha_sum df_filtered).

Definition promedio_sistema_tab2 (df_filtered : table) : option Qc :=
  mean (snd <$> groupby_fecha_sum df_filtered).

Definition maximo_sistema_tab2 (df_filtered : table) : option Qc :=
  maximum (snd <$> groupby_fecha_sum df_filtered).

End Pages.

(** * Properties *)

(** ** Strings and dates *)

Section StringFacts.

Lemma append_cons (c : ascii) (a b : string) :
  (String c a ++ b)%string = String c (a ++ b)%string.
Proof. reflexivity. Qed.

Lemma append_nil (b : string) : (EmptyString ++ b)%string = b.
Proof. reflexivity. Qed.

Lemma slice_to_from (n : nat) (s : string) :
  (PyStr.slice_to n s ++ PyStr.slice_from n s)%string = s.
Proof.
  revert s; induction n as [|n IH]; intros [|c s]; simpl; try reflexivity.
  now rewrite append_cons, IH.
Qed.

Lemma formatted_period_id (period : string) : Period.formatted_period period = period.
Proof. apply slice_to_from. Qed.

Lemma digit_char_inj (a b : Z) :
  PyStr.digit_char a = PyStr.digit_char b -> a mod 10 = b mod 10.
Proof.
  unfold PyStr.digit_char; intros H.
  apply (f_equal nat_of_ascii) in H.
  rewrite !nat_ascii_embedding in H
    by (pose proof (Z.mod_pos_bound a 10); pose proof (Z.mod_pos_bound b 10); lia).
  pose proof (Z.mod_pos_bound a 10); pose proof (Z.mod_pos_bound b 10); lia.
Qed.

Lemma pad2_inj (a b : Z) :
  0 <= a < 100 -> 0 <= b < 100 -> PyStr.pad2 a = PyStr.pad2 b -> a = b.
Proof.
  unfold PyStr.pad2; intros Ha Hb H; injection H as H1 H0.
  apply digit_char_inj in H1, H0.
  rewrite (Z.mod_small (a / 10)), (Z.mod_small (b / 10)) in H1
    by (split; [apply Z.div_pos | apply Z.div_lt_upper_bound]; lia).
  rewrite (Z.div_mod a 10), (Z.div_mod b 10) by lia. lia.
Qed.

Lemma pad4_inj (a b : Z) :
  0 <= a < 10000 -> 0 <= b < 10000 -> PyStr.pad4 a = PyStr.pad4 b -> a = b.
Proof.
  unfold PyStr.pad4; intros Ha Hb H; injection H as H3 H2 H1 H0.
  apply digit_char_inj in H3, H2, H1, H0.
  rewrite (Z.mod_small (a / 1000)), (Z.mod_small (b / 1000)) in H3
    by (split; [apply Z.div_pos | apply Z.div_lt_upper_bound]; lia).
  assert (Hd : forall x, 0 <= x < 10000 ->
             x = 1000 * (x / 1000) + 100 * ((x / 100) mod 10)
                 + 10 * ((x / 10) mod 10) + x mod 10).
  { intros x Hx.
    assert (E1 : x / 100 = x / 10 / 10) by (rewrite Z.div_div by lia; reflexivity).
    assert (E2 : x / 1000 = x / 100 / 10) by (rewrite Z.div_div by lia; reflexivity).
    pose proof (Z.div_mod x 10 ltac:(lia)).
    pose proof (Z.div_mod (x / 10) 10 ltac:(lia)).
    pose proof (Z.div_mod (x / 100) 10 ltac:(lia)).
    lia. }
  rewrite (Hd a Ha), (Hd b Hb). lia.
Qed.

Lemma pad2_length (a : Z) : String.length (PyStr.pad2 a) = 2%nat.
Proof. reflexivity. Qed.

Lemma app_inj_length (a b c d : string) :
  String.length a = String.length c -> (a ++ b)%string = (c ++ d)%string -> a = c /\ b = d.
Proof.
  revert c; induction a as [|x a IH]; intros [|y c]; simpl; intros Hl H; try discriminate.
  - now split.
  - rewrite !append_cons in H. injection H as -> H. injection Hl as Hl.
    destruct (IH c Hl H) as [-> ->]. now split.
Qed.

End StringFacts.

(** ** The period parser *)

Ltac bool_to_prop :=
  repeat match goal with
  | H : _ && _ = true |- _ => apply andb_true_iff in H; destruct H
  | H : _ || _ = true |- _ => apply orb_true_iff in H
  | H : _ || _ = false |- _ => apply orb_false_iff in H; destruct H
  | H : _ && _ = false |- _ => apply andb_false_iff in H
  | H : negb _ = true |- _ => apply negb_true_iff in H
  | H : (_ <? _) = true |- _ => apply Z.ltb_lt in H
  | H : (_ <? _) = false |- _ => apply Z.ltb_ge in H
  | H : (_ <=? _) = true |- _ => apply Z.leb_le in H
  | H : (_ <=? _) = false |- _ => apply Z.leb_gt in H
  | H : (_ =? _) = true |- _ => apply Z.eqb_eq in H
  | H : (_ =? _) = false |- _ => apply Z.eqb_neq in H
  end.

Section DateFacts.

Lemma leb_spec (a b : datetime) :
  Dates.leb a b = true <->
  year a < year b \/
  (year a = year b /\
   (month a < month b \/
    (month a = month b /\ (day a < day b \/ (day a = day b /\ tod a <= tod b))))).
Proof.
  unfold Dates.leb.
  repeat (rewrite orb_true_iff || rewrite andb_true_iff).
  rewrite !Z.ltb_lt, !Z.eqb_eq, Z.leb_le.
  tauto.
Qed.

Lemma leb_refl (a : datetime) : Dates.leb a a = true.
Proof. apply leb_spec. lia. Qed.

Lemma leb_trans (a b c : datetime) :
  Dates.leb a b = true -> Dates.leb b c = true -> Dates.leb a c = true.
Proof. rewrite !leb_spec. lia. Qed.

Lemma leb_antisym (a b : datetime) :
  Dates.leb a b = true -> Dates.leb b a = true -> a = b.
Proof.
  rewrite !leb_spec. destruct a, b; simpl. intros H1 H2.
  f_equal; lia.
Qed.

Lemma leb_total (a b : datetime) : Dates.leb a b = true \/ Dates.leb b a = true.
Proof. rewrite !leb_spec. lia. Qed.

Lemma days_in_month_pos (y m : Z) : 28 <= days_in_month y m.
Proof.
  unfold days_in_month.
  repeat match goal with |- context [if ?b then _ else _] => destruct b end; lia.
Qed.

Lemma make_first (y m : Z) :
  Dates.make y m 1 =
    if (1 <=? y) && (y <=? 9999) && (1 <=? m) && (m <=? 12)
    then Some (mk_datetime y m 1 0) else None.
Proof.
  unfold Dates.make, MINYEAR, MAXYEAR.
  pose proof (days_in_month_pos y m).
  replace (1 <=? days_in_month y m) with true by (symmetry; apply Z.leb_le; lia).
  simpl (1 <=? 1). now rewrite !andb_true_r.
Qed.

End DateFacts.

Section FillFacts.

Variable fmt : datetime -> string.
Variable end_date : datetime.
Hypothesis end_month : 1 <= month end_date <= 12.
Hypothesis end_before_max : month_index end_date < 12 * MAXYEAR + 11.

(** The first days of the months from [cur] on that are not after
    [end_date]. *)
Definition to_fill (cur x : datetime) : Prop :=
  first_of_month x /\ 1 <= month x <= 12 /\
  month_index cur <= month_index x /\ Dates.leb x end_date = true.

Definition filled (cur : datetime) (acc m : gmap string datetime) : Prop :=
  forall tok d,
    m !! tok = Some d <->
    (exists x, to_fill cur x /\ fmt x = tok /\ d = x) \/
    ((forall x, to_fill cur x -> fmt x <> tok) /\ acc !! tok = Some d).

Lemma fill_spec (fuel : nat) :
  forall cur acc,
    first_of_month cur -> 1 <= month cur <= 12 -> MINYEAR <= year cur ->
    (forall x y, to_fill cur x -> to_fill cur y -> fmt x = fmt y -> x = y) ->
    month_index end_date - month_index cur + 1 < Z.of_nat fuel ->
    (0 < fuel)%nat ->
    exists m, Period.fill fuel fmt end_date cur acc = Done m /\ filled cur acc m.
Proof.
  induction fuel as [|fuel IH]; intros cur acc [Hday Htod] Hmonth Hyear Hinj Hfuel Hpos; [lia|].
  simpl. destruct (Dates.leb cur end_date) eqn:Hle.
  - (* one more month *)
    assert (Hidx : month_index cur <= month_index end_date).
    { apply leb_spec in Hle. unfold month_index. lia. }
    unfold month_index, MAXYEAR, MINYEAR in *.
    set (next := if month cur =? 12 then mk_datetime (year cur + 1) 1 (day cur) (tod cur)
                 else mk_datetime (year cur) (month cur + 1) (day cur) (tod cur)).
    assert (Hnext : (if month cur =? 12
                     then Dates.replace cur (year cur + 1) 1
                     else Dates.replace cur (year cur) (month cur + 1)) = Some next).
    { unfold next, Dates.replace, MINYEAR, MAXYEAR. rewrite Hday.
      destruct (month cur =? 12) eqn:E; bool_to_prop.
      - pose proof (days_in_month_pos (year cur + 1) 1).
        repeat match goal with
               | |- context [?a <=? ?b] =>
                   replace (a <=? b) with true by (symmetry; apply Z.leb_le; lia)
               end. reflexivity.
      - pose proof (days_in_month_pos (year cur) (month cur + 1)).
        repeat match goal with
               | |- context [?a <=? ?b] =>
                   replace (a <=? b) with true by (symmetry; apply Z.leb_le; lia)
               end. reflexivity. }
    rewrite Hnext. simpl.
    assert (Hn : first_of_month next /\ 1 <= month next <= 12 /\ 1 <= year next /\
                 12 * year next + (month next - 1) = 12 * year cur + (month cur - 1) + 1).
    { unfold next, first_of_month. destruct (month cur =? 12) eqn:E; bool_to_prop; simpl; lia. }
    destruct Hn as (Hn1 & Hn2 & Hn3 & Hn4).
    assert (Hcur : to_fill cur cur).
    { unfold to_fill, first_of_month, month_index. repeat split; auto; lia. }
    assert (Hsplit : forall x, to_fill cur x <-> x = cur \/ to_fill next x).
    { intros x. unfold to_fill, month_index, first_of_month. split.
      - intros (Hf & Hm & Hi & Hl).
        destruct (Z.eq_dec (12 * year x + (month x - 1)) (12 * year cur + (month cur - 1))).
        + left. destruct Hf as [Hd Ht]. destruct x, cur; simpl in *. f_equal; lia.
        + right. repeat split; try tauto; try lia.
      - intros [-> | (Hf & Hm & Hi & Hl)]; [exact Hcur|].
        repeat split; try tauto; try lia. }
    destruct (IH next (<[fmt cur := mk_datetime (year cur) (month cur) 1 0]> acc))
      as (m & Hm & Hfilled); auto.
    all: try (unfold month_index in *; lia).
    all: try (intros x y Hx Hy; apply Hinj; apply Hsplit; now right).
    exists m. split; [exact Hm|].
    assert (Hcur_eq : mk_datetime (year cur) (month cur) 1 0 = cur).
    { destruct cur; simpl in *. now subst. }
    rewrite Hcur_eq in Hfilled.
    intros tok d. rewrite (Hfilled tok d). split.
    + intros [(x & Hx & Hf & Hd) | (Hnone & Hacc)].
      * left. exists x. split; [apply Hsplit; now right | now split].
      * destruct (decide (fmt cur = tok)) as [E|E].
        -- subst tok. rewrite lookup_insert_eq in Hacc. injection Hacc as <-.
           left. exists cur. now split.
        -- rewrite lookup_insert_ne in Hacc by exact E.
           right. split; [|exact Hacc].
           intros x Hx. apply Hsplit in Hx as [-> | Hx]; auto.
    + intros [(x & Hx & Hf & Hd) | (Hnone & Hacc)].
      * apply Hsplit in Hx as [-> | Hx].
        -- right. subst tok d. split; [|apply lookup_insert_eq].
           intros y Hy Heq.
           assert (y = cur) by (apply Hinj; [apply Hsplit; now right | exact Hcur | exact Heq]).
           subst y. destruct Hy as (_ & _ & Hi & _). unfold month_index in Hi. lia.
        -- left. exists x. now split.
      * right. split.
        -- intros x Hx. apply Hnone, Hsplit. now right.
        -- rewrite lookup_insert_ne; [exact Hacc|]. apply Hnone, Hcur.
  - (* the loop ends *)
    exists acc. split; [reflexivity|].
    assert (Hnone : forall x, ~ to_fill cur x).
    { intros x (Hf & Hm & Hi & Hl).
      assert (Dates.leb cur x = true).
      { apply leb_spec. destruct Hf. unfold month_index in Hi. lia. }
      rewrite (leb_trans cur x end_date) in Hle; auto. discriminate. }
    intros tok d. split.
    + intros H. right. split; [|exact H]. intros x Hx. now apply Hnone in Hx.
    + intros [(x & Hx & _) | (_ & H)]; [now apply Hnone in Hx | exact H].
Qed.

End FillFacts.

Section MappingFacts.

Lemma fuel_for_enough (end_date cur : datetime) :
  month_index end_date - month_index cur + 1 < Z.of_nat (Period.fuel_for end_date cur).
Proof. unfold Period.fuel_for, month_index. lia. Qed.

(** What both dictionaries hold, for a key format that tells the months
    of the horizon apart. *)
Lemma date_mapping_spec (fmt : datetime -> string) (end_date : datetime) :
  1 <= month end_date <= 12 ->
  month_index end_date < 12 * MAXYEAR + 11 ->
  (forall x y, to_fill end_date Period.start_date x -> to_fill end_date Period.start_date y ->
               fmt x = fmt y -> x = y) ->
  exists m,
    Period.fill (Period.fuel_for end_date Period.start_date) fmt end_date Period.start_date ∅
      = Done m /\
    forall tok d,
      m !! tok = Some d <->
      first_of_month d /\ 1 <= month d <= 12 /\
      Dates.le Period.start_date d /\ Dates.le d end_date /\ tok = fmt d.
Proof.
  intros Hm Hmax Hinj.
  destruct (fill_spec fmt end_date Hm Hmax (Period.fuel_for end_date Period.start_date)
              Period.start_date ∅) as (m & Hfill & Hfilled).
  - split; reflexivity.
  - simpl; lia.
  - unfold MINYEAR; simpl; lia.
  - exact Hinj.
  - apply fuel_for_enough.
  - unfold Period.fuel_for; lia.
  - exists m. split; [exact Hfill|].
    intros tok d. rewrite (Hfilled tok d). unfold to_fill, Dates.le. split.
    + intros [(x & (Hf & Hmo & Hi & Hl) & Hfmt & ->) | (_ & H)].
      * split; [exact Hf|]. split; [exact Hmo|]. split; [|split; [exact Hl | now symmetry]].
        apply leb_spec. destruct Hf. unfold month_index in Hi. simpl in *. lia.
      * rewrite lookup_empty in H. discriminate.
    + intros (Hf & Hmo & Hs & He & ->). left. exists d.
      split; [|now split]. split; [exact Hf|]. split; [exact Hmo|]. split; [|exact He].
      apply leb_spec in Hs. destruct Hf. unfold month_index. simpl in *. lia.
Qed.

Lemma to_fill_year (end_date x : datetime) :
  to_fill end_date Period.start_date x ->
  first_of_month x /\ 1 <= month x <= 12 /\ 2023 <= year x <= year end_date.
Proof.
  intros (Hf & Hm & Hi & Hl). apply leb_spec in Hl.
  unfold month_index in Hi. simpl in Hi.
  split; [exact Hf|]. split; [exact Hm|]. lia.
Qed.

Lemma first_of_month_eq (x y : datetime) :
  first_of_month x -> first_of_month y -> year x = year y -> month x = month y -> x = y.
Proof.
  intros [Hd1 Ht1] [Hd2 Ht2] Hy Hm. destruct x, y; simpl in *. f_equal; lia.
Qed.

Lemma strftime_mY_inj (x y : datetime) :
  1 <= month x <= 12 -> 1 <= month y <= 12 ->
  0 <= year x < 10000 -> 0 <= year y < 10000 ->
  strftime_mY x = strftime_mY y -> month x = month y /\ year x = year y.
Proof.
  intros Hmx Hmy Hyx Hyy H. unfold strftime_mY in H.
  apply app_inj_length in H as [H1 H2]; [|reflexivity].
  apply pad2_inj in H1; [|lia..]. apply pad4_inj in H2; [|lia..]. now split.
Qed.

Lemma strftime_my_inj (x y : datetime) :
  1 <= month x <= 12 -> 1 <= month y <= 12 ->
  2023 <= year x <= 2122 -> 2023 <= year y <= 2122 ->
  strftime_my x = strftime_my y -> month x = month y /\ year x = year y.
Proof.
  intros Hmx Hmy Hyx Hyy H. unfold strftime_my in H.
  apply app_inj_length in H as [H1 H2]; [|reflexivity].
  apply pad2_inj in H1; [|lia..].
  apply pad2_inj in H2; [|apply Z.mod_pos_bound; lia..].
  split; [exact H1|].
  pose proof (Z.div_mod (year x) 100 ltac:(lia)).
  pose proof (Z.div_mod (year y) 100 ltac:(lia)).
  lia.
Qed.

(** [energia.py], [potencia.py], [potencia_distribuidoras.py]: a period
    has a date exactly when it is the [%m%Y] code of a month from 2023-01
    to 2025-12, and the date is the first day of that month. *)
Lemma date_mapping_mY_spec :
  exists m,
    Period.date_mapping_mY = Done m /\
    forall tok d,
      Period.lookup_mY m tok = Some d <->
      first_of_month d /\ 1 <= month d <= 12 /\
      Dates.le Period.start_date d /\ Dates.le d Period.end_date_fixed /\
      tok = strftime_mY d.
Proof.
  destruct (date_mapping_spec strftime_mY Period.end_date_fixed) as (m & Hfill & Hm).
  - simpl; lia.
  - unfold month_index, MAXYEAR; simpl; lia.
  - intros x y Hx Hy Heq.
    apply to_fill_year in Hx as (Hfx & Hmx & Hyx), Hy as (Hfy & Hmy & Hyy). simpl in *.
    apply strftime_mY_inj in Heq as [? ?]; try lia.
    now apply first_of_month_eq.
  - exists m. split; [exact Hfill|].
    intros tok d. unfold Period.lookup_mY. rewrite formatted_period_id. apply Hm.
Qed.

(** [precio_potencia.py]: the same with the [%m%y] codes of the months
    from 2023-01 to the month of [today]. *)
Lemma date_mapping_my_spec (today : datetime) :
  Dates.valid today -> year today <= 2122 ->
  exists m,
    Period.date_mapping_my today = Done m /\
    forall tok d,
      Period.lookup_my m tok = Some d <->
      first_of_month d /\ 1 <= month d <= 12 /\
      Dates.le Period.start_date d /\ Dates.le d today /\
      tok = strftime_my d.
Proof.
  intros (Hy & Hmo & Hd & Ht) H2122.
  destruct (date_mapping_spec strftime_my today) as (m & Hfill & Hm).
  - exact Hmo.
  - unfold month_index, MAXYEAR; lia.
  - intros x y Hx Hy'.  intros Heq.
    apply to_fill_year in Hx as (Hfx & Hmx & Hyx), Hy' as (Hfy & Hmy & Hyy).
    apply strftime_my_inj in Heq as [? ?]; try lia.
    now apply first_of_month_eq.
  - exists m. split; [exact Hfill|]. exact Hm.
Qed.

End MappingFacts.

Section PeajeFacts.








Lemma lstrip_cons (c : ascii) (s : string) :
  PyStr.lstrip (String c s) = if PyStr.is_space c then PyStr.lstrip s else String c s.
Proof. reflexivity. Qed.

Lemma rstrip_cons (c : ascii) (s : string) :
  PyStr.rstrip (String c s) =
    match PyStr.rstrip s with
    | EmptyString => if PyStr.is_space c then EmptyString else String c EmptyString
    | t => String c t
    end.
Proof. reflexivity. Qed.











(** [precios_peaje_distribucion.py]: a code has a date exactly when both
    fields are read by [int], the month is in 1..12 and the year in
    1..9999; no horizon is applied. *)
Lemma peaje_date_spec (tok : string) (d : datetime) :
  Period.peaje_date tok = Some d <->
  exists mo y,
    Period.peaje_fields tok = Some (Some mo, Some y) /\
    1 <= mo <= 12 /\ MINYEAR <= y <= MAXYEAR /\ d = mk_datetime y mo 1 0.
Proof.
  unfold Period.peaje_date, Period.parse_peaje, MINYEAR, MAXYEAR.
  destruct (Period.peaje_fields tok) as [[[mo|] [y|]]|]; try rewrite make_first.
  - destruct ((1 <=? y) && (y <=? 9999) && (1 <=? mo) && (mo <=? 12)) eqn:E.
    + bool_to_prop. split.
      * intros [= <-]. exists mo, y. repeat split; lia.
      * intros (mo' & y' & [= <- <-] & _ & _ & ->). reflexivity.
    + split; [discriminate|].
      intros (mo' & y' & [= <- <-] & ? & ? & ->).
      bool_to_prop. lia.
  - split; [discriminate | intros (? & ? & [=] & _)].
  - split; [discriminate | intros (? & ? & [=] & _)].
  - split; [discriminate | intros (? & ? & [=] & _)].
  - split; [discriminate | intros (? & ? & [=] & _)].
Qed.

End PeajeFacts.

(** ** C1: period codes *)




(** ** C6: the date filter *)

Section DateFilter.

Context {V : Type}.
Implicit Types (df : list (LongRecord V)) (r : LongRecord V).

Lemma in_range_spec (start end_ : datetime) (fecha : option datetime) :
  Aggregate.in_range start end_ fecha <->
  exists d, fecha = Some d /\ Dates.le start d /\ Dates.le d end_.
Proof.
  unfold Aggregate.in_range, Dates.le. destruct fecha as [d|].
  - rewrite andb_True, !Is_true_true. split.
    + intros [H1 H2]. now exists d.
    + intros (d' & [= <-] & H1 & H2). now split.
  - split; [intros [] | intros (d & [=] & _)].
Qed.

Lemma date_filter_elem (start end_ : datetime) df r :
  r ∈ Aggregate.date_filter start end_ df <->
  r ∈ df /\ exists d, FECHA r = Some d /\ Dates.le start d /\ Dates.le d end_.
Proof.
  unfold Aggregate.date_filter. rewrite list_elem_of_filter, in_range_spec. tauto.
Qed.

Lemma date_filter_idemp (start end_ : datetime) df :
  Aggregate.date_filter start end_ (Aggregate.date_filter start end_ df)
  = Aggregate.date_filter start end_ df.
Proof.
  unfold Aggregate.date_filter. rewrite list_filter_filter.
  apply list_filter_iff. tauto.
Qed.

(** C6.  The date filter keeps exactly the records whose date lies in
    the closed interval, in their order; for [start = end] these are the
    records of that instant; filtering twice by the same interval changes
    nothing. *)
Theorem C6_date_filter (start end_ : datetime) df :
  (forall r, r ∈ Aggregate.date_filter start end_ df <->
             r ∈ df /\ exists d, FECHA r = Some d /\ Dates.le start d /\ Dates.le d end_) /\
  sublist (Aggregate.date_filter start end_ df) df /\
  (forall r, r ∈ Aggregate.date_filter start start df <-> r ∈ df /\ FECHA r = Some start) /\
  Aggregate.date_filter start end_ (Aggregate.date_filter start end_ df)
  = Aggregate.date_filter start end_ df.
Proof.
  split; [intros r; apply date_filter_elem|].
  split; [apply sublist_filter|].
  split; [|apply date_filter_idemp].
  intros r. rewrite date_filter_elem. split.
  - intros (Hin & d & Hd & H1 & H2). split; [exact Hin|].
    rewrite Hd. f_equal. now apply leb_antisym.
  - intros (Hin & Hd). split; [exact Hin|]. exists start.
    split; [exact Hd|]. split; apply leb_refl.
Qed.

End DateFilter.

(** ** The outcome monad *)

Section OutcomeFacts.

Lemma bind_Done {A B} (c : outcome A) (k : A -> outcome B) (b : B) :
  c ≫= k = Done b <-> exists a, c = Done a /\ k a = Done b.
Proof.
  destruct c as [a| |]; simpl; split.
  - intros H. now exists a.
  - now intros (a' & [= <-] & H).
  - discriminate.
  - now intros (a' & [=] & _).
  - discriminate.
  - now intros (a' & [=] & _).
Qed.

Lemma fmap_Done {A B} (f : A -> B) (c : outcome A) (b : B) :
  f <$> c = Done b <-> exists a, c = Done a /\ b = f a.
Proof.
  destruct c as [a| |]; simpl; split.
  - intros [= <-]. now exists a.
  - now intros (a' & [= <-] & ->).
  - discriminate.
  - now intros (a' & [=] & _).
  - discriminate.
  - now intros (a' & [=] & _).
Qed.

Lemma or_raise_Done {A} (e : exn) (o : option A) (a : A) :
  or_raise e o = Done a <-> o = Some a.
Proof. destruct o; simpl; split; congruence. Qed.

Lemma mapM_cons {A B} (f : A -> outcome B) (x : A) (l : list A) :
  mapM f (x :: l) = f x ≫= fun y => mapM f l ≫= fun k => mret (y :: k).
Proof. reflexivity. Qed.

Lemma mapM_Done {A B} (f : A -> outcome B) (l : list A) (k : list B) :
  mapM f l = Done k <-> Forall2 (fun x y => f x = Done y) l k.
Proof.
  revert k; induction l as [|x l IH]; intros k.
  - split.
    + intros [= <-]. constructor.
    + intros H. inversion H. reflexivity.
  - rewrite mapM_cons, bind_Done. split.
    + intros (y & Hy & H). apply bind_Done in H as (k' & Hk' & [= <-]).
      constructor; [exact Hy | now apply IH].
    + intros H. inversion H as [|? y ? k' Hy Hk']; subst.
      exists y. split; [exact Hy|]. apply bind_Done. exists k'.
      split; [now apply IH | reflexivity].
Qed.

End OutcomeFacts.

(** ** The partial frame of one column *)

Section TempFacts.

Context {V : Type}.

Lemma temp_df_length (df : DataFrame) ids (vals : list V) blank fecha period :
  length (temp_df df ids vals blank fecha period) = nrows df.
Proof. unfold temp_df. now rewrite length_fmap, length_seq. Qed.

Lemma temp_df_elem (df : DataFrame) ids (vals : list V) blank fecha period r :
  r ∈ temp_df df ids vals blank fecha period <->
  exists i, (i < nrows df)%nat /\
    r = mk_long (default None (ids.1 !! i)) (default None (ids.2 !! i)) fecha
                (default blank (vals !! i)) period.
Proof.
  unfold temp_df. rewrite list_elem_of_fmap. split.
  - intros (i & -> & Hi). apply elem_of_seq in Hi. exists i. split; [lia | reflexivity].
  - intros (i & Hi & ->). exists i. split; [reflexivity|]. apply elem_of_seq. lia.
Qed.

Lemma temp_df_FECHA (df : DataFrame) ids (vals : list V) blank fecha period :
  Forall (fun r => FECHA r = fecha) (temp_df df ids vals blank fecha period).
Proof.
  apply Forall_forall. intros r Hr. apply temp_df_elem in Hr as (i & _ & ->). reflexivity.
Qed.

Lemma filter_all {X} (P : X -> Prop) `{!forall x, Decision (P x)} (l : list X) :
  Forall P l -> filter P l = l.
Proof.
  induction 1 as [|x l Hx _ IH]; [reflexivity|].
  now rewrite filter_cons_True, IH.
Qed.

Lemma filter_none {X} (P : X -> Prop) `{!forall x, Decision (P x)} (l : list X) :
  Forall (fun x => ~ P x) l -> filter P l = [].
Proof.
  induction 1 as [|x l Hx _ IH]; [reflexivity|].
  now rewrite filter_cons_False.
Qed.

Lemma filter_concat {X} (P : X -> Prop) `{!forall x, Decision (P x)} (ls : list (list X)) :
  filter P (concat ls) = concat (filter P <$> ls).
Proof.
  induction ls as [|l ls IH]; [reflexivity|].
  simpl. now rewrite filter_app, IH.
Qed.

Lemma fecha_notna_temp_df (df : DataFrame) ids (vals : list V) blank fecha period :
  Reshape.fecha_notna (temp_df df ids vals blank fecha period) =
    match fecha with
    | Some _ => temp_df df ids vals blank fecha period
    | None => []
    end.
Proof.
  unfold Reshape.fecha_notna. destruct fecha as [d|].
  - apply filter_all. eapply Forall_impl; [apply temp_df_FECHA|].
    intros r ->. discriminate.
  - apply filter_none. eapply Forall_impl; [apply temp_df_FECHA|].
    intros r -> H. now apply H.
Qed.

End TempFacts.

(** ** The loaders *)

Section TransformFacts.

(** What one turn of the loop of the mapping pages appends. *)
Definition mapping_column (df : DataFrame) (ids : list name * list name)
    (m : gmap string datetime) (get : gmap string datetime -> string -> option datetime)
    (col : string) (t : list (LongRecord cell)) : Prop :=
  exists period cells,
    Reshape.period_of col = Some period /\ Frame.column df col = Done cells /\
    t = temp_df df ids cells Blank (get m period) period.

Lemma transform_mapping_Done label dm get df long :
  Reshape.transform_mapping label dm get df = Done long ->
  exists m ids dfs,
    dm = Done m /\ Frame.identity (strip_columns df) = Done ids /\
    Forall2 (mapping_column (strip_columns df) ids m get)
            (columns_with label (strip_columns df)) dfs /\
    dfs <> [] /\ long = Reshape.fecha_notna (concat dfs).
Proof.
  unfold Reshape.transform_mapping. intros H.
  apply bind_Done in H as (m & Hm & H).
  apply bind_Done in H as (dfs & Hdfs & H).
  apply bind_Done in H as (t & Ht & [= <-]).
  assert (Hne : dfs <> []) by (destruct dfs; [discriminate | congruence]).
  assert (t = concat dfs) as -> by (destruct dfs; [discriminate | now injection Ht]).
  apply mapM_Done in Hdfs.
  assert (Hids : exists ids, Frame.identity (strip_columns df) = Done ids).
  { destruct Hdfs as [|col t' cols dfs' Hcol _]; [congruence|].
    apply bind_Done in Hcol as (period & _ & Hcol).
    apply bind_Done in Hcol as (ids & Hids & _). now exists ids. }
  destruct Hids as (ids & Hids).
  exists m, ids, dfs. repeat split; try assumption.
  eapply Forall2_impl; [exact Hdfs|].
  intros col t' Hcol. simpl in Hcol.
  apply bind_Done in Hcol as (period & Hp & Hcol). apply or_raise_Done in Hp.
  apply bind_Done in Hcol as (ids' & Hids' & Hcol).
  apply bind_Done in Hcol as (cells & Hcells & [= <-]).
  rewrite Hids in Hids'. injection Hids' as <-.
  now exists period, cells.
Qed.

Context (to_numeric : string -> option Qc).

(** What one turn of the loop of the toll page appends, when it does not
    [continue]. *)
Definition peaje_column_done (df : DataFrame) (ids : list name * list name)
    (col : string) (t : list (LongRecord (option Qc))) : Prop :=
  exists code date cells,
    Reshape.period_of col = Some code /\
    Period.parse_peaje (PyStr.strip code) = Period.Date date /\
    Frame.column df col = Done cells /\
    t = temp_df df ids (Reshape.coerce to_numeric <$> cells) None (Some date) (PyStr.strip code).

Lemma fecha_peaje_parse (col code : string) :
  Reshape.period_of col = Some code ->
  Reshape.fecha_peaje col =
    match Period.parse_peaje (PyStr.strip code) with
    | Period.Date d => Some d
    | _ => None
    end.
Proof. intros H. unfold Reshape.fecha_peaje. now rewrite H. Qed.

Lemma peaje_columns_Done df cols (rs : list (option (list (LongRecord (option Qc))))) :
  Forall2 (fun col r => Reshape.peaje_column to_numeric df col = Done r) cols rs ->
  omap id rs <> [] ->
  exists ids,
    Frame.identity df = Done ids /\
    Forall2 (peaje_column_done df ids)
            (filter (fun col => is_Some (Reshape.fecha_peaje col)) cols) (omap id rs).
Proof.
  intros H Hne.
  assert (Hids : exists ids, Frame.identity df = Done ids).
  { induction H as [|col r cols rs Hcol _ IH]; [now destruct Hne|].
    unfold Reshape.peaje_column in Hcol.
    apply bind_Done in Hcol as (code & _ & Hcol).
    destruct (Period.parse_peaje code).
    - apply bind_Done in Hcol as (ids & Hids & _). now exists ids.
    - injection Hcol as <-. now apply IH.
    - injection Hcol as <-. now apply IH. }
  destruct Hids as (ids & Hids). exists ids. split; [exact Hids|]. clear Hne.
  induction H as [|col r cols rs Hcol _ IH]; [constructor|].
  unfold Reshape.peaje_column in Hcol.
  apply bind_Done in Hcol as (code & Hcode & Hcol).
  apply fmap_Done in Hcode as (code0 & Hcode0 & ->). apply or_raise_Done in Hcode0.
  pose proof (fecha_peaje_parse col code0 Hcode0) as Hf.
  destruct (Period.parse_peaje (PyStr.strip code0)) as [date| |] eqn:Hparse.
  - apply bind_Done in Hcol as (ids' & Hids' & Hcol).
    apply bind_Done in Hcol as (cells & Hcells & [= <-]).
    rewrite Hids in Hids'. injection Hids' as <-.
    rewrite filter_cons_True by (rewrite Hf; now eexists).
    simpl. constructor; [|exact IH]. now exists code0, date, cells.
  - injection Hcol as <-.
    rewrite filter_cons_False by (rewrite Hf; intros [? [=]]). exact IH.
  - injection Hcol as <-.
    rewrite filter_cons_False by (rewrite Hf; intros [? [=]]). exact IH.
Qed.

Lemma transform_peaje_Done df long :
  Reshape.transform_peaje to_numeric df = Done (Some long) ->
  exists ids dfs,
    Frame.identity (strip_columns df) = Done ids /\
    Forall2 (peaje_column_done (strip_columns df) ids)
            (filter (fun col => is_Some (Reshape.fecha_peaje col))
                    (columns_with Reshape.label_peaje (strip_columns df))) dfs /\
    dfs <> [] /\ long = Reshape.dropna (concat dfs).
Proof.
  unfold Reshape.transform_peaje. intros H.
  apply bind_Done in H as (dfs & Hdfs & H).
  apply fmap_Done in Hdfs as (rs & Hrs & ->). apply mapM_Done in Hrs.
  destruct (omap id rs) as [|t dfs'] eqn:Hdfs; [discriminate|].
  apply bind_Done in H as (t' & Ht' & [= <-]). injection Ht' as <-.
  destruct (peaje_columns_Done _ _ _ Hrs) as (ids & Hids & Hall).
  { now rewrite Hdfs. }
  exists ids, (t :: dfs'). rewrite Hdfs in Hall.
  repeat split; auto.
Qed.

End TransformFacts.

(** ** C5: size of the long table *)

Section ReshapeSize.

Lemma filter_length_all {X} (P : X -> Prop) `{!forall x, Decision (P x)} (l : list X) :
  length (filter P l) = length l -> Forall P l.
Proof.
  intros Hlen. apply Forall_forall. intros x Hx.
  destruct (decide (P x)) as [HP|HP]; [exact HP|].
  pose proof (length_filter_lt P l x Hx HP). lia.
Qed.

Lemma empty_false_nrows (df : DataFrame) : Frame.empty df = false -> nrows df <> 0%nat.
Proof.
  unfold Frame.empty. intros H. apply orb_false_iff in H as [H _].
  now apply Nat.eqb_neq in H.
Qed.

Lemma concat_length_const {X} (n : nat) (ls : list (list X)) :
  Forall (fun l => length l = n) ls -> length (concat ls) = (n * length ls)%nat.
Proof.
  induction 1 as [|l ls Hl _ IH]; simpl; [lia|].
  rewrite length_app, IH, Hl. lia.
Qed.

Lemma fecha_notna_app {V} (t1 t2 : list (LongRecord V)) :
  Reshape.fecha_notna (t1 ++ t2)%list = (Reshape.fecha_notna t1 ++ Reshape.fecha_notna t2)%list.
Proof. apply filter_app. Qed.

Lemma elem_of_concat {X} (x : X) (ls : list (list X)) :
  x ∈ concat ls <-> exists l, x ∈ l /\ l ∈ ls.
Proof.
  induction ls as [|l ls IH]; simpl.
  - split; [intros H; inversion H | intros (l & _ & H); inversion H].
  - rewrite elem_of_app, IH. split.
    + intros [H | (l' & Hx & Hl)]; [exists l | exists l'];
        (split; [assumption|]); [left | now right].
    + intros (l' & Hx & Hl). apply elem_of_cons in Hl as [-> | Hl]; [now left|].
      right. now exists l'.
Qed.

Lemma mapping_rows df ids m get cols dfs :
  Forall2 (mapping_column df ids m get) cols dfs ->
  length (Reshape.fecha_notna (concat dfs))
  = (nrows df * length (filter (fun col => is_Some (Reshape.fecha_mapping m get col)) cols))%nat.
Proof.
  induction 1 as [|col t cols dfs (period & cells & Hp & _ & ->) _ IH]; [simpl; lia|].
  match goal with |- context [concat (?t :: dfs)] => change (concat (t :: dfs)) with (t ++ concat dfs)%list end.
  rewrite fecha_notna_app, length_app, fecha_notna_temp_df, IH.
  assert (Hf : Reshape.fecha_mapping m get col = get m period)
    by (unfold Reshape.fecha_mapping; now rewrite Hp).
  rewrite filter_cons, Hf.
  destruct (get m period) as [d|].
  - rewrite decide_True by (now eexists). simpl. rewrite temp_df_length. lia.
  - rewrite decide_False by (intros [? [=]]). simpl. lia.
Qed.

Lemma mapping_dates df ids m get cols dfs r :
  Forall2 (mapping_column df ids m get) cols dfs ->
  r ∈ Reshape.fecha_notna (concat dfs) ->
  exists col period d,
    col ∈ cols /\ Reshape.period_of col = Some period /\ get m period = Some d /\
    FECHA r = Some d /\ Periodo r = period.
Proof.
  intros H Hr. unfold Reshape.fecha_notna in Hr.
  apply list_elem_of_filter in Hr as [Hna Hr].
  apply elem_of_concat in Hr as (t & Hr & Ht).
  apply list_elem_of_lookup in Ht as (j & Hj).
  destruct (Forall2_lookup_r _ _ _ _ _ H Hj) as (col & Hcol & period & cells & Hp & _ & ->).
  apply temp_df_elem in Hr as (i & _ & ->). simpl in *.
  destruct (get m period) as [d|] eqn:Hd; [|now destruct Hna].
  exists col, period, d. repeat split; auto.
  apply list_elem_of_lookup. now exists j.
Qed.

Context (to_numeric : string -> option Qc).

Lemma peaje_rows df ids cols dfs :
  Forall2 (peaje_column_done to_numeric df ids) cols dfs ->
  length (concat dfs) = (nrows df * length cols)%nat.
Proof.
  intros H. rewrite (concat_length_const (nrows df)).
  - now rewrite (Forall2_length _ _ _ H).
  - apply Forall_forall. intros t Ht.
    apply list_elem_of_lookup in Ht as (j & Hj).
    destruct (Forall2_lookup_r _ _ _ _ _ H Hj) as (col & _ & code & date & cells & _ & _ & _ & ->).
    apply temp_df_length.
Qed.

Lemma peaje_dates df ids cols dfs r :
  Forall2 (peaje_column_done to_numeric df ids) cols dfs ->
  r ∈ concat dfs ->
  exists col code d,
    col ∈ cols /\ Reshape.period_of col = Some code /\
    Period.peaje_date (PyStr.strip code) = Some d /\
    FECHA r = Some d /\ Periodo r = PyStr.strip code.
Proof.
  intros H Hr.
  apply elem_of_concat in Hr as (t & Hr & Ht).
  apply list_elem_of_lookup in Ht as (j & Hj).
  destruct (Forall2_lookup_r _ _ _ _ _ H Hj)
    as (col & Hcol & code & date & cells & Hp & Hparse & _ & ->).
  apply temp_df_elem in Hr as (i & _ & ->). simpl.
  exists col, code, date. repeat split; auto.
  - apply list_elem_of_lookup. now exists j.
  - unfold Period.peaje_date. now rewrite Hparse.
Qed.

Lemma peaje_date_first (code : string) (d : datetime) :
  Period.peaje_date code = Some d -> first_of_month d.
Proof.
  intros H. apply peaje_date_spec in H as (mo & y & _ & _ & _ & ->). now split.
Qed.

Lemma transform_energia_size (df : DataFrame) (long : list (LongRecord cell)) :
  Reshape.transform_energia df = Done long ->
  exists m,
    Period.date_mapping_mY = Done m /\
    length long
    = (nrows df * length (filter (fun col => is_Some (Reshape.fecha_mapping m Period.lookup_mY col))
                                 (columns_with Reshape.label_energia (strip_columns df))))%nat /\
    Forall (fun r => exists d, FECHA r = Some d /\ first_of_month d) long.
Proof.
  unfold Reshape.transform_energia. intros H.
  apply transform_mapping_Done in H as (m & ids & dfs & Hm & _ & Hcols & _ & ->).
  exists m. split; [exact Hm|]. split.
  - exact (mapping_rows _ _ _ _ _ _ Hcols).
  - apply Forall_forall. intros r Hr.
    destruct (mapping_dates _ _ _ _ _ _ _ Hcols Hr) as (col & period & d & _ & _ & Hd & Hf & _).
    exists d. split; [exact Hf|].
    destruct date_mapping_mY_spec as (m' & Hm' & Hspec).
    rewrite Hm in Hm'. injection Hm' as <-.
    apply Hspec in Hd. tauto.
Qed.

Lemma transform_peaje_size (df : DataFrame) (long : list (LongRecord (option Qc))) :
  Reshape.transform_peaje to_numeric df = Done (Some long) ->
  (length long
   <= nrows df * length (filter (fun col => is_Some (Reshape.fecha_peaje col))
                                (columns_with Reshape.label_peaje (strip_columns df))))%nat /\
  Forall (fun r => exists d, FECHA r = Some d /\ first_of_month d) long.
Proof.
  intros H.
  apply transform_peaje_Done in H as (ids & dfs & _ & Hcols & _ & ->).
  split.
  - unfold Reshape.dropna. etransitivity; [apply length_filter|].
    rewrite (peaje_rows _ _ _ _ Hcols). reflexivity.
  - apply Forall_forall. intros r Hr. unfold Reshape.dropna in Hr.
    apply list_elem_of_filter in Hr as [_ Hr].
    destruct (peaje_dates _ _ _ _ _ Hcols Hr) as (col & code & d & _ & _ & Hd & Hf & _).
    exists d. split; [exact Hf|]. now apply peaje_date_first in Hd.
Qed.

(** C5.  The long table of [energia.py] and of the toll page has at most
    rows x selected columns records; on a frame that is not empty the bound
    is reached only when every selected header has a date; the date of
    every record is the first day of a month. *)
Theorem C5_reshape_size (df : DataFrame) :
  (forall long,
     Reshape.transform_energia df = Done long ->
     (length long
      <= nrows df * length (columns_with Reshape.label_energia (strip_columns df)))%nat /\
     (Frame.empty df = false ->
      length long
      = (nrows df * length (columns_with Reshape.label_energia (strip_columns df)))%nat ->
      exists m, Period.date_mapping_mY = Done m /\
        Forall (fun col => is_Some (Reshape.fecha_mapping m Period.lookup_mY col))
               (columns_with Reshape.label_energia (strip_columns df))) /\
     Forall (fun r => exists d, FECHA r = Some d /\ first_of_month d) long) /\
  (forall long,
     Reshape.transform_peaje to_numeric df = Done (Some long) ->
     (length long
      <= nrows df * length (columns_with Reshape.label_peaje (strip_columns df)))%nat /\
     (Frame.empty df = false ->
      length long
      = (nrows df * length (columns_with Reshape.label_peaje (strip_columns df)))%nat ->
      Forall (fun col => is_Some (Reshape.fecha_peaje col))
             (columns_with Reshape.label_peaje (strip_columns df))) /\
     Forall (fun r => exists d, FECHA r = Some d /\ first_of_month d) long).
Proof.
  split.
  - intros long H.
    destruct (transform_energia_size df long H) as (m & Hm & Hlen & Hdates).
    generalize dependent (columns_with Reshape.label_energia (strip_columns df)).
    intros cols Hlen.
    split; [|split; [|exact Hdates]].
    + rewrite Hlen. apply Nat.mul_le_mono_l. apply (length_filter _).
    + intros Hne Heq. apply empty_false_nrows in Hne.
      exists m. split; [exact Hm|].
      rewrite Hlen in Heq. apply Nat.mul_cancel_l in Heq; [|exact Hne].
      exact (filter_length_all _ _ Heq).
  - intros long H.
    destruct (transform_peaje_size df long H) as (Hle & Hdates).
    generalize dependent (columns_with Reshape.label_peaje (strip_columns df)).
    intros cols Hle.
    pose proof (length_filter (fun col => is_Some (Reshape.fecha_peaje col)) cols) as Hlen'.
    split; [|split; [|exact Hdates]].
    + etransitivity; [exact Hle|]. apply Nat.mul_le_mono_l. exact Hlen'.
    + intros Hne Heq. apply empty_false_nrows in Hne.
      apply (filter_length_all (fun col => is_Some (Reshape.fecha_peaje col))).
      apply Nat.le_antisymm; [exact Hlen'|].
      apply (Nat.mul_le_mono_pos_l _ _ (nrows df)); lia.
Qed.

End ReshapeSize.

(** ** C4: one record per agent and date *)

Section NoDuplicates.

Lemma agente_fecha_temp_df {V} df ids (vals : list V) blank fecha period :
  agente_fecha <$> temp_df df ids vals blank fecha period
  = (fun a => (a, fecha)) <$> row_names df ids.1.
Proof.
  unfold temp_df, row_names. rewrite <- !list_fmap_compose. reflexivity.
Qed.

Lemma NoDup_blocks {X D Y} (g : D -> Y) (xs : list X) (ds : list D) :
  Inj (=) (=) g -> NoDup xs -> NoDup ds ->
  NoDup (concat ((fun d => (fun a => (a, g d)) <$> xs) <$> ds)).
Proof.
  intros Hg Hxs. induction 1 as [|d ds Hd Hds IH]; simpl; [constructor|].
  apply NoDup_app. split; [|split; [|exact IH]].
  - apply NoDup_fmap_2; [|exact Hxs]. intros a b [=]. assumption.
  - intros [a y] Ha Hin.
    apply list_elem_of_fmap in Ha as (a' & [= -> ->] & _).
    apply elem_of_concat in Hin as (l & Hin & Hl).
    apply list_elem_of_fmap in Hl as (d' & -> & Hd').
    apply list_elem_of_fmap in Hin as (a'' & [= _ Heq] & _).
    apply Hg in Heq. subst d'. contradiction.
Qed.

Lemma omap_cons {X Y} (f : X -> option Y) (x : X) (l : list X) :
  omap f (x :: l) = match f x with Some y => y :: omap f l | None => omap f l end.
Proof. reflexivity. Qed.

Lemma omap_filter_is_Some {X Y} (f : X -> option Y) (l : list X) :
  omap f (filter (fun x => is_Some (f x)) l) = omap f l.
Proof.
  induction l as [|x l IH]; [reflexivity|].
  rewrite filter_cons. destruct (f x) as [y|] eqn:E.
  - rewrite decide_True by (now eexists). now rewrite !omap_cons, E, IH.
  - rewrite decide_False by (intros [? [=]]). now rewrite omap_cons, E, IH.
Qed.

Lemma mapping_keys df ids m get cols dfs :
  Forall2 (mapping_column df ids m get) cols dfs ->
  agente_fecha <$> Reshape.fecha_notna (concat dfs)
  = concat ((fun d => (fun a => (a, Some d)) <$> row_names df ids.1)
              <$> omap (Reshape.fecha_mapping m get) cols).
Proof.
  induction 1 as [|col t cols dfs (period & cells & Hp & _ & ->) _ IH]; [reflexivity|].
  match goal with
  | |- context [concat (?t :: dfs)] => change (concat (t :: dfs)) with (t ++ concat dfs)%list
  end.
  rewrite fecha_notna_app, fmap_app, IH, fecha_notna_temp_df.
  assert (Hf : Reshape.fecha_mapping m get col = get m period)
    by (unfold Reshape.fecha_mapping; now rewrite Hp).
  rewrite omap_cons, Hf. destruct (get m period) as [d|]; [|reflexivity].
  rewrite fmap_cons. simpl concat. now rewrite agente_fecha_temp_df.
Qed.

Context (to_numeric : string -> option Qc).

Lemma peaje_keys df ids cols dfs :
  Forall2 (peaje_column_done to_numeric df ids) cols dfs ->
  agente_fecha <$> concat dfs
  = concat ((fun d => (fun a => (a, Some d)) <$> row_names df ids.1)
              <$> omap Reshape.fecha_peaje cols).
Proof.
  induction 1 as [|col t cols dfs (code & date & cells & Hp & Hparse & _ & ->) _ IH];
    [reflexivity|].
  match goal with
  | |- context [concat (?t :: dfs)] => change (concat (t :: dfs)) with (t ++ concat dfs)%list
  end.
  rewrite fmap_app, IH, agente_fecha_temp_df.
  rewrite omap_cons, (fecha_peaje_parse col code Hp), Hparse. reflexivity.
Qed.

(** C4, as stated, fails: two rows of the workbook with the same agent,
    or two selected headers with the same date, give two records for one
    agent and date. *)
Lemma C4_counterexample :
  ~ (forall df long,
       Reshape.transform_energia df = Done long -> NoDup (agente_fecha <$> long)) /\
  ~ (forall df long,
       Reshape.transform_peaje (fun _ => None) df = Done (Some long) ->
       NoDup (agente_fecha <$> long)).
Proof.
  split.
  - intros H.
    assert (exists long,
              Reshape.transform_energia
                (mk_frame 2 (Some [Some "X"; Some "X"]) (Some [Some "A"; Some "A"])
                          [("Energía MWh 012023", [Num 1%Qc; Num 1%Qc])]) = Done long /\
              ~ NoDup (agente_fecha <$> long)) as (long & Hlong & Hdup).
    { eexists. split; [vm_compute; reflexivity|].
      vm_compute. intros Hn. apply NoDup_cons in Hn as [Hnin _]. apply Hnin. left. }
    exact (Hdup (H _ _ Hlong)).
  - intros H.
    assert (exists long,
              Reshape.transform_peaje (fun _ => None)
                (mk_frame 1 (Some [Some "X"]) (Some [Some "A"])
                          [("Peaje generación USD/MWh 12023", [Num 1%Qc]);
                           ("Peaje generación USD/MWh 012023", [Num 1%Qc])])
              = Done (Some long) /\
              ~ NoDup (agente_fecha <$> long)) as (long & Hlong & Hdup).
    { eexists. split; [vm_compute; reflexivity|].
      vm_compute. intros Hn. apply NoDup_cons in Hn as [Hnin _]. apply Hnin. left. }
    exact (Hdup (H _ _ Hlong)).
Qed.

(** C4 (amended).  When the rows of the workbook carry pairwise distinct
    agents and the selected headers that have a date have pairwise
    distinct dates, the long table holds at most one record for an agent
    and a date. *)
Theorem C4_no_duplicates (df : DataFrame) (agentes : list name) :
  AGENTE_col df = Some agentes ->
  NoDup (row_names df agentes) ->
  (forall m long,
     Period.date_mapping_mY = Done m ->
     Reshape.transform_energia df = Done long ->
     NoDup (omap (Reshape.fecha_mapping m Period.lookup_mY)
                 (columns_with Reshape.label_energia (strip_columns df))) ->
     NoDup (agente_fecha <$> long)) /\
  (forall long,
     Reshape.transform_peaje to_numeric df = Done (Some long) ->
     NoDup (omap Reshape.fecha_peaje
                 (columns_with Reshape.label_peaje (strip_columns df))) ->
     NoDup (agente_fecha <$> long)).
Proof.
  intros Hcol Hagentes. split.
  - intros m long Hm H Hdates. unfold Reshape.transform_energia in H.
    apply transform_mapping_Done in H as (m' & ids & dfs & Hm' & Hids & Hcols & _ & ->).
    rewrite Hm in Hm'. injection Hm' as <-.
    unfold Frame.identity in Hids. simpl in Hids. rewrite Hcol in Hids.
    destruct (EMPRESA_col df); [|discriminate]. injection Hids as <-.
    rewrite (mapping_keys _ _ _ _ _ _ Hcols). simpl.
    apply (NoDup_blocks Some); [apply _ | exact Hagentes | exact Hdates].
  - intros long H Hdates.
    apply transform_peaje_Done in H as (ids & dfs & Hids & Hcols & _ & ->).
    unfold Frame.identity in Hids. simpl in Hids. rewrite Hcol in Hids.
    destruct (EMPRESA_col df); [|discriminate]. injection Hids as <-.
    unfold Reshape.dropna.
    eapply sublist_NoDup; [|apply fmap_sublist, sublist_filter].
    rewrite (peaje_keys _ _ _ _ Hcols), omap_filter_is_Some. simpl.
    apply (NoDup_blocks Some); [apply _ | exact Hagentes | exact Hdates].
Qed.

End NoDuplicates.

Lemma C4_witness :
  let df := mk_frame 2 (Some [Some "X"; Some "Y"]) (Some [Some "A"; Some "A"])
                     [("Energía MWh 012023", [Num 1%Qc; Num 1%Qc]);
                      ("Energía MWh 022023", [Num 1%Qc; Blank])] in
  AGENTE_col df = Some [Some "X"; Some "Y"] /\
  NoDup (row_names df [Some "X"; Some "Y"]) /\
  exists long, Reshape.transform_energia df = Done long /\ NoDup (agente_fecha <$> long).
Proof.
  intros df.
  assert (H1 : AGENTE_col df = Some [Some "X"; Some "Y"]) by reflexivity.
  assert (H2 : NoDup (row_names df [Some "X"; Some "Y"])).
  { apply (bool_decide_unpack _). vm_compute. exact I. }
  split; [exact H1|]. split; [exact H2|].
  assert (exists m, Period.date_mapping_mY = Done m /\
            NoDup (omap (Reshape.fecha_mapping m Period.lookup_mY)
                        (columns_with Reshape.label_energia (strip_columns df))))
    as (m & Hm & Hdates).
  { eexists. split; [vm_compute; reflexivity|].
    apply (bool_decide_unpack _). vm_compute. exact I. }
  assert (exists long, Reshape.transform_energia df = Done long) as (long & Hlong).
  { eexists. vm_compute. reflexivity. }
  exists long. split; [exact Hlong|].
  exact (proj1 (C4_no_duplicates (fun _ => None) df _ H1 H2) m long Hm Hlong Hdates).
Defined.

(** ** C9: blank and unreadable cells *)

Section MissingCells.


Context (to_numeric : string -> option Qc).





End MissingCells.

(** ** C10: the loader raises nothing *)

Section LoaderFacts.

Lemma bind_fuel {A B} (c : outcome A) (k : A -> outcome B) :
  c <> OutOfFuel -> (forall a, k a <> OutOfFuel) -> c ≫= k <> OutOfFuel.
Proof. destruct c as [a| |]; simpl; auto; discriminate. Qed.

Lemma fmap_fuel {A B} (f : A -> B) (c : outcome A) :
  c <> OutOfFuel -> f <$> c <> OutOfFuel.
Proof. destruct c; simpl; auto; discriminate. Qed.

Lemma or_raise_fuel {A} (e : exn) (o : option A) : or_raise e o <> OutOfFuel.
Proof. destruct o; discriminate. Qed.

Lemma mapM_fuel {A B} (f : A -> outcome B) (l : list A) :
  (forall x, f x <> OutOfFuel) -> mapM f l <> OutOfFuel.
Proof.
  intros Hf. induction l as [|x l IH]; [discriminate|].
  rewrite mapM_cons. apply bind_fuel; [apply Hf|].
  intros y. apply bind_fuel; [exact IH | discriminate].
Qed.

Lemma identity_fuel (df : DataFrame) : Frame.identity df <> OutOfFuel.
Proof. unfold Frame.identity. destruct (AGENTE_col df), (EMPRESA_col df); discriminate. Qed.

Lemma column_fuel (df : DataFrame) (col : string) : Frame.column df col <> OutOfFuel.
Proof.
  unfold Frame.column. destruct (filter _ (value_cols df)) as [|? [|? ?]]; discriminate.
Qed.

Lemma pd_concat_fuel {A} (dfs : list (list A)) : Reshape.pd_concat dfs <> OutOfFuel.
Proof. destruct dfs; discriminate. Qed.

Lemma transform_mapping_fuel label dm get df :
  dm <> OutOfFuel -> Reshape.transform_mapping label dm get df <> OutOfFuel.
Proof.
  intros Hdm. unfold Reshape.transform_mapping.
  apply bind_fuel; [exact Hdm|]. intros m.
  apply bind_fuel.
  - apply mapM_fuel. intros col.
    apply bind_fuel; [apply or_raise_fuel|]. intros period.
    apply bind_fuel; [apply identity_fuel|]. intros ids.
    apply bind_fuel; [apply column_fuel | discriminate].
  - intros dfs. apply bind_fuel; [apply pd_concat_fuel | discriminate].
Qed.

Lemma transform_energia_fuel (df : DataFrame) :
  Reshape.transform_energia df <> OutOfFuel.
Proof.
  apply transform_mapping_fuel.
  destruct date_mapping_mY_spec as (m & -> & _). discriminate.
Qed.

Context (to_numeric : string -> option Qc).

Lemma transform_peaje_fuel (df : DataFrame) :
  Reshape.transform_peaje to_numeric df <> OutOfFuel.
Proof.
  unfold Reshape.transform_peaje. apply bind_fuel.
  - apply fmap_fuel, mapM_fuel. intros col. unfold Reshape.peaje_column.
    apply bind_fuel; [apply fmap_fuel, or_raise_fuel|]. intros code.
    destruct (Period.parse_peaje code); try discriminate.
    apply bind_fuel; [apply identity_fuel|]. intros ids.
    apply bind_fuel; [apply column_fuel | discriminate].
  - intros [|t dfs]; [discriminate|].
    apply bind_fuel; [apply pd_concat_fuel | discriminate].
Qed.

Lemma try_except_Done {A} (body : outcome (option A)) :
  body <> OutOfFuel -> exists r, Loader.try_except body = Done r.
Proof. destruct body as [r|e|]; simpl; eauto. congruence. Qed.

Lemma energia_body_fuel (env : Loader.Env) :
  (if negb (Loader.base_path_exists env) then mret None
   else if negb (Loader.file_path_exists env) then mret None
   else df ← Loader.pd_read_excel env;
        if Frame.empty df then mret None else Some <$> Reshape.transform_energia df)
  <> (OutOfFuel : outcome (option (list (LongRecord cell)))).
Proof.
  destruct (negb _); [discriminate|]. destruct (negb _); [discriminate|].
  apply bind_fuel.
  - unfold Loader.pd_read_excel. destruct (Loader.read_excel env); discriminate.
  - intros df. destruct (Frame.empty df); [discriminate|].
    apply fmap_fuel, transform_energia_fuel.
Qed.

Lemma peaje_body_fuel (env : Loader.Env) :
  (if negb (Loader.file_path_exists env) then mret None
   else df ← Loader.pd_read_excel env;
        if Frame.empty df then mret None else Reshape.transform_peaje to_numeric df)
  <> OutOfFuel.
Proof.
  destruct (negb _); [discriminate|].
  apply bind_fuel.
  - unfold Loader.pd_read_excel. destruct (Loader.read_excel env); discriminate.
  - intros df. destruct (Frame.empty df); [discriminate|].
    apply transform_peaje_fuel.
Qed.

Lemma read_and_transform {A} (env : Loader.Env) (T : DataFrame -> outcome (option A)) :
  let body := df ← Loader.pd_read_excel env;
              if Frame.empty df then mret None else T df in
  (forall e, Loader.read_excel env = inl e -> Loader.try_except body = Done None) /\
  (forall df, Loader.read_excel env = inr df -> Frame.empty df = true ->
              Loader.try_except body = Done None) /\
  (forall df e, Loader.read_excel env = inr df -> T df = Raised e ->
                Loader.try_except body = Done None).
Proof.
  unfold Loader.pd_read_excel. cbv zeta. split; [|split].
  - intros e ->. reflexivity.
  - intros df -> Hempty. cbn [mbind outcome_bind]. rewrite Hempty. reflexivity.
  - intros df e -> Hraise. cbn [mbind outcome_bind].
    destruct (Frame.empty df); [reflexivity|]. rewrite Hraise. reflexivity.
Qed.

Lemma fmap_Raised {A B} (f : A -> B) (c : outcome A) (e : exn) :
  c = Raised e -> f <$> c = Raised e.
Proof. intros ->. reflexivity. Qed.

(** C10.  Whatever the environment, [load_and_transform_data] returns a
    value: [None] when the data directory or the workbook is missing, when
    reading the workbook raises, when the workbook is empty and when the
    transformation raises; otherwise a long table, or [None].  No
    exception leaves the function, and the page stops exactly when the
    value is [None]. *)
Theorem C10_loader_returns (env : Loader.Env) :
  (exists r, Loader.load_and_transform_data_energia env = Done r) /\
  (exists r, Loader.load_and_transform_data_peaje to_numeric env = Done r) /\
  (Loader.base_path_exists env = false ->
   Loader.load_and_transform_data_energia env = Done None) /\
  (Loader.file_path_exists env = false ->
   Loader.load_and_transform_data_energia env = Done None /\
   Loader.load_and_transform_data_peaje to_numeric env = Done None) /\
  (forall e, Loader.read_excel env = inl e ->
   Loader.load_and_transform_data_energia env = Done None /\
   Loader.load_and_transform_data_peaje to_numeric env = Done None) /\
  (forall df, Loader.read_excel env = inr df -> Frame.empty df = true ->
   Loader.load_and_transform_data_energia env = Done None /\
   Loader.load_and_transform_data_peaje to_numeric env = Done None) /\
  (forall df e, Loader.read_excel env = inr df -> Reshape.transform_energia df = Raised e ->
   Loader.load_and_transform_data_energia env = Done None) /\
  (forall df e, Loader.read_excel env = inr df ->
   Reshape.transform_peaje to_numeric df = Raised e ->
   Loader.load_and_transform_data_peaje to_numeric env = Done None) /\
  (forall (A : Type) (loaded : option A),
     Loader.start_page loaded = Loader.Stopped <-> loaded = None).
Proof.
  pose proof (read_and_transform env (fun df => Some <$> Reshape.transform_energia df))
    as (He1 & He2 & He3).
  pose proof (read_and_transform env (Reshape.transform_peaje to_numeric))
    as (Hp1 & Hp2 & Hp3).
  unfold Loader.load_and_transform_data_energia, Loader.load_and_transform_data_peaje.
  split; [apply try_except_Done, energia_body_fuel|].
  split; [apply try_except_Done, peaje_body_fuel|].
  split; [intros ->; reflexivity|].
  split.
  { intros ->. split; [destruct (negb (Loader.base_path_exists env))|]; reflexivity. }
  split.
  { intros e Hr. split.
    - destruct (negb (Loader.base_path_exists env)); [reflexivity|].
      destruct (negb (Loader.file_path_exists env)); [reflexivity|]. now apply He1 with e.
    - destruct (negb (Loader.file_path_exists env)); [reflexivity|]. now apply Hp1 with e. }
  split.
  { intros df Hr Hempty. split.
    - destruct (negb (Loader.base_path_exists env)); [reflexivity|].
      destruct (negb (Loader.file_path_exists env)); [reflexivity|]. now apply He2 with df.
    - destruct (negb (Loader.file_path_exists env)); [reflexivity|]. now apply Hp2 with df. }
  split.
  { intros df e Hr Hraise.
    destruct (negb (Loader.base_path_exists env)); [reflexivity|].
    destruct (negb (Loader.file_path_exists env)); [reflexivity|].
    apply He3 with df e; [exact Hr|]. now apply fmap_Raised. }
  split.
  { intros df e Hr Hraise.
    destruct (negb (Loader.file_path_exists env)); [reflexivity|].
    now apply Hp3 with df e. }
  intros A [df|]; split; intros H; (discriminate || reflexivity).
Qed.

End LoaderFacts.

(** ** Grouping *)

Section GroupFacts.

Import Aggregate.


Lemma NoDup_unique {K} `{EqDecision K} (l : list K) : NoDup (unique l).
Proof.
  induction l as [|y l IH]; [constructor|].
  simpl. constructor.
  - rewrite list_elem_of_filter. tauto.
  - now apply NoDup_filter.
Qed.

Context {A K : Type} `{EqDecision K}.
Context (sort_keys : list K -> list K) (key : A -> option K).
Hypothesis sort_keys_perm : forall l, sort_keys l ≡ₚ l.

Lemma groupby_keys (df : list A) :
  (groupby sort_keys key df).*1 = sort_keys (unique (omap key df)).
Proof.
  unfold groupby. rewrite <- list_fmap_compose.
  rewrite <- (list_fmap_id (sort_keys _)) at 2. reflexivity.
Qed.

Lemma groupby_NoDup (df : list A) : NoDup (groupby sort_keys key df).*1.
Proof. rewrite groupby_keys, sort_keys_perm. apply NoDup_unique. Qed.



Lemma series_NoDup {B} (agg : list A -> B) (df : list A) :
  NoDup (prod_map id agg <$> groupby sort_keys key df).*1.
Proof.
  rewrite <- list_fmap_compose.
  replace (fst ∘ prod_map id agg) with (@fst K (list A)) by reflexivity.
  apply groupby_NoDup.
Qed.

End GroupFacts.

(** ** C2: the series of a company and of the system *)

Section Series.

Import Aggregate.







End Series.

Example empresa_a_300 :
  Aggregate.df_empresa_sum "EMPRESA_A"
    [mk_long (Some "X") (Some "EMPRESA_A") (Some (mk_datetime 2023 1 1 0))
             (Some (Q2Qc 100)) "012023";
     mk_long (Some "Y") (Some "EMPRESA_A") (Some (mk_datetime 2023 1 1 0))
             (Some (Q2Qc 200)) "012023"]
  = [((mk_datetime 2023 1 1 0, "EMPRESA_A"), Q2Qc 300)].
Proof. vm_compute. reflexivity. Qed.

(** ** C3: participation when the total of the system is zero *)

Section ZeroTotal.

Import Aggregate.









End ZeroTotal.


(** ** C7: the participations of the companies add up to 100 *)

Section Participation.

Import Aggregate.
Local Open Scope Qc_scope.






















End Participation.



(** ** C8: the order of the statistics table *)

Section StatsOrder.

Import Aggregate.
Local Open Scope Qc_scope.

Lemma fle_refl (x : float64) : x <> NaN -> fle x x.
Proof. destruct x as [q|[]|]; simpl; intros H; try exact I; [apply Qcle_refl | now apply H]. Qed.







#[global] Instance fle_dec : RelDecision fle.
Proof.
  intros x y. destruct x as [p|[]|], y as [q|[]|]; simpl; try apply _.
Defined.

#[global] Instance desc_nan_last_dec : RelDecision desc_nan_last.
Proof. intros x y. unfold desc_nan_last. apply _. Defined.









End StatsOrder.


(** ** Headers and period codes *)

Section HeaderFacts.

(** The characters of a text that are not whitespace. *)
Lemma chars_app (a b : string) :
  list_ascii_of_string (a ++ b) = (list_ascii_of_string a ++ list_ascii_of_string b)%list.
Proof.
  induction a as [|c a IH]; [reflexivity|].
  rewrite append_cons. simpl. now rewrite IH.
Qed.

Lemma append_not_empty (w : string) (c : ascii) : (w ++ String c "")%string <> ""%string.
Proof. destruct w; [discriminate|]. rewrite append_cons. discriminate. Qed.

Lemma split_from_tokens (s word : string) :
  Forall (fun c => PyStr.is_space c = false) (list_ascii_of_string word) ->
  Forall (fun w => w <> ""%string /\
                   Forall (fun c => PyStr.is_space c = false) (list_ascii_of_string w))
         (PyStr.split_from s word).
Proof.
  revert word. induction s as [|c s IH]; intros word Hword; simpl.
  - destruct (String.eqb_spec word ""); [constructor|].
    constructor; [now split | constructor].
  - destruct (PyStr.is_space c) eqn:Hc.
    + destruct (String.eqb_spec word "").
      * apply IH. constructor.
      * constructor; [now split|]. apply IH. constructor.
    + apply IH. rewrite chars_app. apply Forall_app. split; [exact Hword|].
      constructor; [exact Hc | constructor].
Qed.

Lemma lstrip_no_space (w : string) :
  Forall (fun c => PyStr.is_space c = false) (list_ascii_of_string w) -> PyStr.lstrip w = w.
Proof.
  destruct w as [|c w]; [reflexivity|]. intros H. inversion H as [|? ? Hc _]; subst.
  rewrite lstrip_cons, Hc. reflexivity.
Qed.

Lemma rstrip_no_space (w : string) :
  Forall (fun c => PyStr.is_space c = false) (list_ascii_of_string w) -> PyStr.rstrip w = w.
Proof.
  induction w as [|c w IH]; [reflexivity|]. intros H. inversion H as [|? ? Hc Hw]; subst.
  rewrite rstrip_cons, (IH Hw), Hc. now destruct w.
Qed.

Lemma last_item_elem {A} (xs : list A) (x : A) : PyStr.last_item xs = Some x -> x ∈ xs.
Proof.
  unfold PyStr.last_item. induction xs as [|y xs IH]; [discriminate|].
  destruct xs as [|z xs].
  - intros [= <-]. left.
  - intros H. right. apply IH. exact H.
Qed.

Lemma last_item_None {A} (xs : list A) : PyStr.last_item xs = None <-> xs = [].
Proof.
  unfold PyStr.last_item. split; [|now intros ->].
  induction xs as [|y xs IH]; [reflexivity|].
  destruct xs as [|z xs]; [discriminate|].
  intros H. specialize (IH H). discriminate.
Qed.

(** The period code of a header has no whitespace and is not empty. *)
Lemma period_of_token (col code : string) :
  Reshape.period_of col = Some code ->
  code <> ""%string /\ Forall (fun c => PyStr.is_space c = false) (list_ascii_of_string code).
Proof.
  intros H. apply last_item_elem in H.
  pose proof (split_from_tokens col "" ltac:(constructor)) as Hall.
  rewrite Forall_forall in Hall. exact (Hall code H).
Qed.

(** [precios_peaje_distribucion.py], line 33: the [strip()] that follows
    [split()[-1]] changes nothing. *)
Theorem peaje_code_strip_noop (col code : string) :
  Reshape.period_of col = Some code -> PyStr.strip code = code.
Proof.
  intros H. apply period_of_token in H as [_ H].
  unfold PyStr.strip. rewrite (lstrip_no_space _ H). now apply rstrip_no_space.
Qed.

Lemma peaje_code_strip_noop_witness :
  Reshape.period_of "Peaje generación USD/MWh 012023" = Some "012023"%string /\
  PyStr.strip "012023" = "012023"%string.
Proof.
  assert (H : Reshape.period_of "Peaje generación USD/MWh 012023" = Some "012023"%string)
    by reflexivity.
  split; [exact H|]. exact (peaje_code_strip_noop _ _ H).
Defined.

Lemma split_from_word (s word : string) :
  word <> ""%string -> PyStr.split_from s word <> [].
Proof.
  revert word. induction s as [|c s IH]; intros word Hw; simpl.
  - destruct (String.eqb_spec word ""); [contradiction | discriminate].
  - destruct (PyStr.is_space c).
    + destruct (String.eqb_spec word ""); [contradiction | discriminate].
    + apply IH. apply append_not_empty.
Qed.

Lemma split_from_char (s word : string) (c : ascii) :
  In c (list_ascii_of_string s) -> PyStr.is_space c = false -> PyStr.split_from s word <> [].
Proof.
  revert word. induction s as [|d s IH]; intros word Hin Hc; [destruct Hin|].
  simpl. destruct Hin as [->|Hin].
  - rewrite Hc. apply split_from_word, append_not_empty.
  - destruct (PyStr.is_space d).
    + destruct (String.eqb_spec word ""); [now apply IH | discriminate].
    + now apply IH.
Qed.

Lemma prefix_head (c : ascii) (needle hay : string) :
  String.prefix (String c needle) hay = true -> exists hay', hay = String c hay'.
Proof.
  destruct hay as [|d hay]; simpl; [discriminate|].
  destruct (ascii_dec c d) as [->|]; [|discriminate]. intros _. now eexists.
Qed.

Lemma contains_head (c : ascii) (needle hay : string) :
  PyStr.contains (String c needle) hay = true -> In c (list_ascii_of_string hay).
Proof.
  induction hay as [|d hay IH]; intros H.
  - simpl in H. discriminate.
  - cbn [PyStr.contains] in H. apply orb_true_iff in H as [H|H].
    + apply prefix_head in H as (hay' & [= <- _]). now left.
    + right. now apply IH.
Qed.

Lemma label_head (label : string) :
  label ∈ [Reshape.label_energia; Reshape.label_potencia;
           Reshape.label_precio_potencia; Reshape.label_peaje] ->
  exists c rest, label = String c rest /\ PyStr.is_space c = false.
Proof.
  intros Hlabel.
  repeat (apply elem_of_cons in Hlabel as [->|Hlabel]);
    [do 2 eexists; split; [reflexivity|reflexivity]..|inversion Hlabel].
Qed.

Lemma period_of_contains (c : ascii) (rest col : string) :
  PyStr.is_space c = false -> PyStr.contains (String c rest) col = true ->
  exists code, Reshape.period_of col = Some code.
Proof.
  intros Hc Hcol. apply contains_head in Hcol.
  destruct (Reshape.period_of col) as [code|] eqn:Hp; [now exists code|].
  apply last_item_None in Hp. exfalso. revert Hp. now apply (split_from_char col "" c).
Qed.

(** A header that holds the label of a page has a period code:
    [col.split()[-1]] raises no [IndexError] on a selected column. *)
Theorem period_of_selected (label col : string) :
  label ∈ [Reshape.label_energia; Reshape.label_potencia;
           Reshape.label_precio_potencia; Reshape.label_peaje] ->
  PyStr.contains label col = true ->
  exists code, Reshape.period_of col = Some code.
Proof.
  intros Hlabel Hcol. apply label_head in Hlabel as (c & rest & -> & Hc).
  exact (period_of_contains c rest col Hc Hcol).
Qed.

Lemma period_of_selected_witness :
  exists code, Reshape.period_of "  Potencia kW   122025 " = Some code.
Proof.
  apply (period_of_selected Reshape.label_potencia).
  - right. left.
  - reflexivity.
Defined.

End HeaderFacts.

(** ** The exceptions of the transformation *)

Section TransformErrors.

Lemma mapM_all_Done {A B} (f : A -> outcome B) (l : list A) :
  (forall x, x ∈ l -> exists y, f x = Done y) -> exists k, mapM f l = Done k.
Proof.
  induction l as [|x l IH]; intros H; [now exists []|].
  destruct (H x ltac:(left)) as (y & Hy).
  destruct IH as (k & Hk); [intros z Hz; apply H; now right|].
  exists (y :: k). rewrite mapM_cons, Hy. cbn [mbind outcome_bind]. rewrite Hk. reflexivity.
Qed.

Lemma mapM_Raised {A B} (f : A -> outcome B) (l : list A) (e : exn) :
  (forall x, x ∈ l -> (exists y, f x = Done y) \/ f x = Raised e) ->
  (exists x, x ∈ l /\ f x = Raised e) ->
  mapM f l = Raised e.
Proof.
  induction l as [|x l IH]; intros Hall (z & Hz & Hfz); [inversion Hz|].
  rewrite mapM_cons.
  destruct (Hall x ltac:(left)) as [(y & Hy)|Hx].
  - rewrite Hy. cbn [mbind outcome_bind]. rewrite IH; [reflexivity| |].
    + intros w Hw. apply Hall. now right.
    + apply elem_of_cons in Hz as [->|Hz]; [congruence|]. now exists z.
  - rewrite Hx. reflexivity.
Qed.

Lemma filter_header_length (col : string) (vc : list (string * list cell)) :
  length (filter (fun hc => hc.1 = col) vc) = length (filter (fun h => h = col) vc.*1).
Proof.
  induction vc as [|[h c] vc IH]; [reflexivity|].
  rewrite fmap_cons, !filter_cons. cbn [fst].
  destruct (decide (h = col)); simpl; now rewrite IH.
Qed.

Lemma count_NoDup {A} `{EqDecision A} (l : list A) (x : A) :
  NoDup l -> x ∈ l -> length (filter (fun y => y = x) l) = 1%nat.
Proof.
  induction 1 as [|y l Hy Hl IH]; intros Hx; [inversion Hx|].
  rewrite filter_cons. destruct (decide (y = x)) as [->|Hne].
  - simpl. f_equal. apply length_zero_iff_nil.
    apply (filter_none (fun y => y = x)). apply Forall_forall. intros z Hz ->. contradiction.
  - apply elem_of_cons in Hx as [->|Hx]; [contradiction|]. now apply IH.
Qed.

Lemma count_dup {A} `{EqDecision A} (l : list A) :
  ~ NoDup l -> exists x, x ∈ l /\ (2 <= length (filter (fun y => y = x) l))%nat.
Proof.
  induction l as [|y l IH]; intros H; [destruct H; constructor|].
  destruct (decide (y ∈ l)) as [Hin|Hnin].
  - exists y. split; [left|]. rewrite filter_cons_True by reflexivity. simpl.
    apply le_n_S. apply list_elem_of_split in Hin as (l1 & l2 & ->).
    rewrite filter_app, filter_cons_True by reflexivity.
    rewrite length_app. simpl. lia.
  - destruct IH as (x & Hx & Hlen).
    + intros Hl. apply H. now constructor.
    + exists x. split; [now right|]. rewrite filter_cons.
      destruct (decide (y = x)); simpl; lia.
Qed.

Lemma column_count (df : DataFrame) (label col : string) :
  col ∈ columns_with label df ->
  length (filter (fun hc => hc.1 = col) (value_cols df))
  = length (filter (fun h => h = col) (columns_with label df)).
Proof.
  intros Hcol. rewrite filter_header_length. unfold columns_with in *.
  rewrite list_filter_filter. f_equal. apply list_filter_iff.
  intros h. split; [|tauto]. intros ->. split; [reflexivity|].
  now apply list_elem_of_filter in Hcol as [Hc _].
Qed.

Lemma column_unique (df : DataFrame) (label col : string) :
  NoDup (columns_with label df) -> col ∈ columns_with label df ->
  exists cells, column df col = Done cells.
Proof.
  intros Hnd Hcol. pose proof (column_count df label col Hcol) as Hlen.
  rewrite (count_NoDup _ _ Hnd Hcol) in Hlen. unfold column.
  destruct (filter _ (value_cols df)) as [|hc [|hc' rest]]; [discriminate| |discriminate].
  now exists hc.2.
Qed.

Lemma column_outcome (df : DataFrame) (label col : string) :
  col ∈ columns_with label df ->
  (exists cells, column df col = Done cells) \/ column df col = Raised ValueError.
Proof.
  intros Hcol. pose proof (column_count df label col Hcol) as Hlen. unfold column.
  destruct (filter _ (value_cols df)) as [|hc [|hc' rest]].
  - exfalso. symmetry in Hlen. apply length_zero_iff_nil in Hlen.
    assert (Hin : col ∈ filter (fun h => h = col) (columns_with label df))
      by (apply list_elem_of_filter; now split).
    rewrite Hlen in Hin. inversion Hin.
  - left. now exists hc.2.
  - now right.
Qed.

Lemma column_duplicate (df : DataFrame) (label : string) :
  ~ NoDup (columns_with label df) ->
  exists col, col ∈ columns_with label df /\ column df col = Raised ValueError.
Proof.
  intros Hnd. apply count_dup in Hnd as (col & Hcol & Hlen).
  exists col. split; [exact Hcol|].
  rewrite <- (column_count df label col Hcol) in Hlen. unfold column.
  destruct (filter _ (value_cols df)) as [|hc [|hc' rest]]; simpl in Hlen; [lia..|reflexivity].
Qed.

Lemma transform_mapping_outcome (label : string) (m : gmap string datetime)
    (get : gmap string datetime -> string -> option datetime) (df : DataFrame) :
  label ∈ [Reshape.label_energia; Reshape.label_potencia; Reshape.label_precio_potencia] ->
  let cols := columns_with label (strip_columns df) in
  (cols = [] -> Reshape.transform_mapping label (Done m) get df = Raised ValueError) /\
  (cols <> [] -> (AGENTE_col df = None \/ EMPRESA_col df = None) ->
   Reshape.transform_mapping label (Done m) get df = Raised KeyError) /\
  (AGENTE_col df <> None -> EMPRESA_col df <> None -> ~ NoDup cols ->
   Reshape.transform_mapping label (Done m) get df = Raised ValueError) /\
  (cols <> [] -> AGENTE_col df <> None -> EMPRESA_col df <> None -> NoDup cols ->
   exists long, Reshape.transform_mapping label (Done m) get df = Done long).
Proof.
  intros Hlabel3 cols.
  assert (Hlabel : label ∈ [Reshape.label_energia; Reshape.label_potencia;
                            Reshape.label_precio_potencia; Reshape.label_peaje])
    by (rewrite !elem_of_cons in *; tauto).
  clear Hlabel3. unfold Reshape.transform_mapping. fold cols.
  cbn [mbind outcome_bind].
  set (sdf := strip_columns df) in *.
  set (turn := fun col : string =>
                 period ← or_raise IndexError (Reshape.period_of col);
                 ids ← identity sdf;
                 cells ← column sdf col;
                 mret (temp_df sdf ids cells Blank (get m period) period)).
  assert (Hperiod : forall col, col ∈ cols -> exists code, Reshape.period_of col = Some code).
  { intros col Hcol. apply list_elem_of_filter in Hcol as [Hc _].
    destruct (label_head label Hlabel) as (c & rest & Hl & Hsp). rewrite Hl in Hc.
    exact (period_of_contains c rest col Hsp Hc). }
  split; [|split; [|split]].
  - intros ->. reflexivity.
  - intros Hne Hmiss.
    assert (Hid : identity sdf = Raised KeyError).
    { unfold identity. cbn [sdf strip_columns AGENTE_col EMPRESA_col].
      destruct Hmiss as [-> | ->]; [reflexivity | now destruct (AGENTE_col df)]. }
    rewrite (mapM_Raised turn cols KeyError); [reflexivity| |].
    + intros col Hcol. right. destruct (Hperiod col Hcol) as (code & Hcode).
      unfold turn. rewrite Hcode, Hid. reflexivity.
    + destruct cols as [|col cols']; [contradiction|].
      exists col. split; [left|]. destruct (Hperiod col ltac:(left)) as (code & Hcode).
      unfold turn. rewrite Hcode, Hid. reflexivity.
  - intros Ha He Hdup.
    assert (exists ids, identity sdf = Done ids) as (ids & Hid).
    { unfold identity. cbn [sdf strip_columns AGENTE_col EMPRESA_col].
      destruct (AGENTE_col df), (EMPRESA_col df); try contradiction. now eexists. }
    rewrite (mapM_Raised turn cols ValueError); [reflexivity| |].
    + intros col Hcol. destruct (Hperiod col Hcol) as (code & Hcode).
      unfold turn. rewrite Hcode, Hid. cbn [or_raise mbind outcome_bind].
      destruct (column_outcome sdf label col Hcol) as [(cells & ->)| ->];
        [left; now eexists | now right].
    + destruct (column_duplicate sdf label Hdup) as (col & Hcol & Hraise).
      exists col. split; [exact Hcol|]. destruct (Hperiod col Hcol) as (code & Hcode).
      unfold turn. rewrite Hcode, Hid, Hraise. reflexivity.
  - intros Hne Ha He Hnd.
    assert (exists ids, identity sdf = Done ids) as (ids & Hid).
    { unfold identity. cbn [sdf strip_columns AGENTE_col EMPRESA_col].
      destruct (AGENTE_col df), (EMPRESA_col df); try contradiction. now eexists. }
    destruct (mapM_all_Done turn cols) as (dfs & Hdfs).
    + intros col Hcol. destruct (Hperiod col Hcol) as (code & Hcode).
      destruct (column_unique sdf label col Hnd Hcol) as (cells & Hcells).
      unfold turn. rewrite Hcode, Hid, Hcells. now eexists.
    + rewrite Hdfs. cbn [mbind outcome_bind].
      assert (Hdfs' : dfs <> []).
      { apply mapM_Done, Forall2_length in Hdfs. intros ->.
        apply Hne. now apply length_zero_iff_nil. }
      destruct dfs; [contradiction|]. now eexists.
Qed.

(** The outcomes of the transformation of [energia.py] and
    [potencia.py]: without a selected column [pd.concat] raises
    [ValueError]; with one, a missing [AGENTE] or [EMPRESA] column raises
    [KeyError]; a header selected twice raises [ValueError]; in every other
    case the long table is returned.  An [IndexError] is never raised. *)
Theorem transform_mY_outcome (label : string) (df : DataFrame) :
  label ∈ [Reshape.label_energia; Reshape.label_potencia] ->
  let cols := columns_with label (strip_columns df) in
  let transform := Reshape.transform_mapping label Period.date_mapping_mY Period.lookup_mY in
  (cols = [] -> transform df = Raised ValueError) /\
  (cols <> [] -> (AGENTE_col df = None \/ EMPRESA_col df = None) ->
   transform df = Raised KeyError) /\
  (AGENTE_col df <> None -> EMPRESA_col df <> None -> ~ NoDup cols ->
   transform df = Raised ValueError) /\
  (cols <> [] -> AGENTE_col df <> None -> EMPRESA_col df <> None -> NoDup cols ->
   exists long, transform df = Done long).
Proof.
  intros Hlabel cols transform. unfold transform.
  destruct date_mapping_mY_spec as (m & -> & _).
  apply transform_mapping_outcome. rewrite !elem_of_cons in *. tauto.
Qed.

End TransformErrors.

Lemma transform_mY_outcome_witness :
  let df := mk_frame 1 (Some [Some "X"]) None [("Energía MWh 012023", [Num 1%Qc])] in
  Reshape.transform_energia df = Raised KeyError.
Proof.
  intros df.
  apply (proj1 (proj2 (transform_mY_outcome Reshape.label_energia df ltac:(left)))).
  - discriminate.
  - now right.
Defined.

(** ** The period code and the date of a record *)

Section PeriodoFacts.

Lemma mapping_periodo label dm get df long r :
  Reshape.transform_mapping label dm get df = Done long -> r ∈ long ->
  exists m d, dm = Done m /\ get m (Periodo r) = Some d /\ FECHA r = Some d.
Proof.
  intros Hlong Hr.
  apply transform_mapping_Done in Hlong as (m & ids & dfs & Hm & _ & Hcols & _ & ->).
  destruct (mapping_dates _ _ _ _ _ _ _ Hcols Hr) as (col & period & d & _ & _ & Hd & Hf & Hp).
  exists m, d. rewrite Hp. now repeat split.
Qed.

(** [energia.py], [potencia.py]: in the long table the column [Periodo]
    is the [%m%Y] code of the column [FECHA], and every date is the first
    day of a month from January 2023 to December 2025. *)
Theorem periodo_fecha_mY (label : string) (df : DataFrame)
    (long : list (LongRecord cell)) (r : LongRecord cell) :
  Reshape.transform_mapping label Period.date_mapping_mY Period.lookup_mY df = Done long ->
  r ∈ long ->
  exists d,
    FECHA r = Some d /\ Periodo r = strftime_mY d /\ first_of_month d /\
    1 <= month d <= 12 /\ 2023 <= year d <= 2025.
Proof.
  intros Hlong Hr.
  destruct (mapping_periodo _ _ _ _ _ _ Hlong Hr) as (m & d & Hm & Hget & Hf).
  destruct date_mapping_mY_spec as (m' & Hm' & Hspec).
  rewrite Hm' in Hm. injection Hm as ->.
  apply Hspec in Hget as (Hfirst & Hmonth & Hs & He & Hcode).
  exists d. split; [exact Hf|]. split; [exact Hcode|]. split; [exact Hfirst|].
  split; [exact Hmonth|].
  apply leb_spec in Hs, He. cbn in Hs, He. lia.
Qed.

(** [precio_potencia.py]: the column [Periodo] is the [%m%y] code of
    [FECHA], and no date is after [today]. *)
Theorem periodo_fecha_my (today : datetime) (df : DataFrame)
    (long : list (LongRecord cell)) (r : LongRecord cell) :
  Dates.valid today -> year today <= 2122 ->
  Reshape.transform_precio_potencia today df = Done long ->
  r ∈ long ->
  exists d,
    FECHA r = Some d /\ Periodo r = strftime_my d /\ first_of_month d /\
    Dates.le Period.start_date d /\ Dates.le d today.
Proof.
  intros Hvalid Hyear Hlong Hr.
  destruct (mapping_periodo _ _ _ _ _ _ Hlong Hr) as (m & d & Hm & Hget & Hf).
  destruct (date_mapping_my_spec today Hvalid Hyear) as (m' & Hm' & Hspec).
  rewrite Hm' in Hm. injection Hm as ->.
  apply Hspec in Hget as (Hfirst & Hmonth & Hs & He & Hcode).
  exists d. split; [exact Hf|]. split; [exact Hcode|]. split; [exact Hfirst|].
  split; [exact Hs | exact He].
Qed.

Context (to_numeric : string -> option Qc).

(** [precios_peaje_distribucion.py]: parsing the column [Periodo] of a
    record gives back its [FECHA]; the code has 5 or 6 characters. *)
Theorem periodo_fecha_peaje (df : DataFrame)
    (long : list (LongRecord (option Qc))) (r : LongRecord (option Qc)) :
  Reshape.transform_peaje to_numeric df = Done (Some long) ->
  r ∈ long ->
  FECHA r <> None /\ Period.peaje_date (Periodo r) = FECHA r /\
  (String.length (Periodo r) = 5 \/ String.length (Periodo r) = 6)%nat.
Proof.
  intros Hlong Hr.
  apply transform_peaje_Done in Hlong as (ids & dfs & _ & Hcols & _ & ->).
  unfold Reshape.dropna in Hr. apply list_elem_of_filter in Hr as [_ Hr].
  destruct (peaje_dates _ _ _ _ _ _ Hcols Hr) as (col & code & d & _ & _ & Hd & Hf & Hp).
  rewrite Hp, Hf, Hd. split; [discriminate|]. split; [reflexivity|].
  apply peaje_date_spec in Hd as (mo & y & Hfields & _).
  unfold Period.peaje_fields in Hfields.
  destruct (Nat.eqb_spec (String.length (PyStr.strip code)) 5); [now left|].
  destruct (Nat.eqb_spec (String.length (PyStr.strip code)) 6); [now right|discriminate].
Qed.

End PeriodoFacts.

Lemma periodo_fecha_mY_witness :
  let df := mk_frame 1 (Some [Some "X"]) (Some [Some "A"])
                     [("Potencia kW 032024", [Num 1%Qc])] in
  exists long r,
    Reshape.transform_potencia df = Done long /\ r ∈ long /\
    exists d, FECHA r = Some d /\ Periodo r = strftime_mY d /\ first_of_month d /\
              1 <= month d <= 12 /\ 2023 <= year d <= 2025.
Proof.
  intros df.
  assert (exists long r, Reshape.transform_potencia df = Done long /\ r ∈ long)
    as (long & r & Hlong & Hr).
  { eexists. eexists. split; [vm_compute; reflexivity|]. left. }
  exists long, r. split; [exact Hlong|]. split; [exact Hr|].
  exact (periodo_fecha_mY Reshape.label_potencia df long r Hlong Hr).
Defined.

Lemma periodo_fecha_my_witness :
  let today := mk_datetime 2026 11 4 0 in
  let df := mk_frame 1 (Some [Some "X"]) (Some [Some "A"])
                     [("Precio Potencia US$/kW 0324", [Num 1%Qc])] in
  Dates.valid today /\ year today <= 2122 /\
  exists long r,
    Reshape.transform_precio_potencia today df = Done long /\ r ∈ long /\
    exists d, FECHA r = Some d /\ Periodo r = strftime_my d /\ first_of_month d /\
              Dates.le Period.start_date d /\ Dates.le d today.
Proof.
  intros today df.
  assert (Hv : Dates.valid today).
  { unfold Dates.valid, MINYEAR, MAXYEAR. vm_compute. intuition discriminate. }
  assert (Hy : year today <= 2122) by (simpl; lia).
  split; [exact Hv|]. split; [exact Hy|].
  assert (exists long r, Reshape.transform_precio_potencia today df = Done long /\ r ∈ long)
    as (long & r & Hlong & Hr).
  { eexists. eexists. split; [vm_compute; reflexivity|]. left. }
  exists long, r. split; [exact Hlong|]. split; [exact Hr|].
  exact (periodo_fecha_my today df long r Hv Hy Hlong Hr).
Defined.

Lemma periodo_fecha_peaje_witness :
  let df := mk_frame 1 (Some [Some "X"]) (Some [Some "A"])
                     [("Peaje generación USD/MWh 12023", [Num 1%Qc])] in
  exists long r,
    Reshape.transform_peaje (fun _ => None) df = Done (Some long) /\ r ∈ long /\
    FECHA r <> None /\ Period.peaje_date (Periodo r) = FECHA r /\
    (String.length (Periodo r) = 5 \/ String.length (Periodo r) = 6)%nat.
Proof.
  intros df.
  assert (exists long r, Reshape.transform_peaje (fun _ => None) df = Done (Some long) /\ r ∈ long)
    as (long & r & Hlong & Hr).
  { eexists. eexists. split; [vm_compute; reflexivity|]. left. }
  exists long, r. split; [exact Hlong|]. split; [exact Hr|].
  exact (periodo_fecha_peaje (fun _ => None) df long r Hlong Hr).
Defined.

(** ** Codes of five characters *)

Section FiveChars.

Lemma int_one_char (c : ascii) (n : Z) :
  PyStr.int (String c "") = Some n -> 0 <= n <= 9.
Proof.
  destruct c as [[] [] [] [] [] [] [] []]; intros H; vm_compute in H;
    try discriminate; injection H as <-; lia.
Qed.

Lemma slice_one (s : string) :
  String.length s = 5%nat -> exists c rest, PyStr.slice 0 1 s = String c "" /\ s = String c rest.
Proof.
  destruct s as [|c rest]; [discriminate|]. intros _. exists c, rest. split; [|reflexivity].
  unfold PyStr.slice. cbn. now destruct rest.
Qed.

(** [precios_peaje_distribucion.py], lines 39-42: in a code of five
    characters the month is the first character alone, so such a code
    never gives a month from October to December: those months need six
    characters. *)
Theorem peaje_five_chars (period_code : string) (d : datetime) :
  Period.peaje_date period_code = Some d ->
  (String.length period_code = 5%nat -> 1 <= month d <= 9) /\
  (10 <= month d -> String.length period_code = 6%nat).
Proof.
  intros Hd. apply peaje_date_spec in Hd as (mo & y & Hfields & Hmo & _ & ->). cbn [month].
  unfold Period.peaje_fields in Hfields.
  destruct (Nat.eqb_spec (String.length period_code) 5) as [H5|H5].
  - destruct (slice_one period_code H5) as (c & rest & Hslice & _).
    rewrite Hslice in Hfields.
    destruct (PyStr.int (String c "")) as [n|] eqn:Hint; [|discriminate].
    injection Hfields as -> _. apply int_one_char in Hint.
    split; [intros _; lia | intros; lia].
  - split; [contradiction|]. intros _.
    destruct (Nat.eqb_spec (String.length period_code) 6); [assumption | discriminate].
Qed.

Lemma peaje_five_chars_witness :
  Period.peaje_date "10224" = Some (mk_datetime 224 1 1 0) /\
  (String.length "10224" = 5%nat -> 1 <= month (mk_datetime 224 1 1 0) <= 9).
Proof.
  assert (H : Period.peaje_date "10224" = Some (mk_datetime 224 1 1 0)) by reflexivity.
  split; [exact H|]. exact (proj1 (peaje_five_chars "10224" _ H)).
Defined.

End FiveChars.

(** ** The loop of the dictionary for any clock *)

Section FillOutcome.

Variable fmt : datetime -> string.
Variable end_date : datetime.
Hypothesis end_valid : Dates.valid end_date.

Lemma fill_outcome (fuel : nat) :
  forall cur acc,
    first_of_month cur -> 1 <= month cur <= 12 -> MINYEAR <= year cur <= MAXYEAR ->
    month_index end_date - month_index cur + 1 < Z.of_nat fuel -> (0 < fuel)%nat ->
    (month_index end_date < 12 * MAXYEAR + 11 ->
     exists m, Period.fill fuel fmt end_date cur acc = Done m) /\
    (month_index end_date = 12 * MAXYEAR + 11 -> month_index cur <= month_index end_date ->
     Period.fill fuel fmt end_date cur acc = Raised ValueError).
Proof.
  destruct end_valid as (Hey & Hem & Hed & Het).
  induction fuel as [|fuel IH]; intros cur acc [Hday Htod] Hmonth Hyear Hfuel Hpos; [lia|].
  cbn [Period.fill]. destruct (Dates.leb cur end_date) eqn:Hle.
  - assert (Hidx : month_index cur <= month_index end_date).
    { apply leb_spec in Hle. unfold month_index. lia. }
    destruct (decide (month_index cur = 12 * MAXYEAR + 11)) as [Hlast|Hlast].
    + (* December 9999: there is no next year *)
      assert (Hm12 : month cur = 12 /\ year cur = 9999)
        by (unfold month_index, MINYEAR, MAXYEAR in *; lia).
      destruct Hm12 as [Hm12 Hy]. rewrite Hm12, Hy. cbn.
      split; [unfold month_index, MAXYEAR in *; lia | reflexivity].
    + set (next := if month cur =? 12 then mk_datetime (year cur + 1) 1 (day cur) (tod cur)
                   else mk_datetime (year cur) (month cur + 1) (day cur) (tod cur)).
      assert (Hnext : (if month cur =? 12
                       then Dates.replace cur (year cur + 1) 1
                       else Dates.replace cur (year cur) (month cur + 1)) = Some next).
      { unfold next, Dates.replace. rewrite Hday.
        unfold month_index, MINYEAR, MAXYEAR in *.
        destruct (month cur =? 12) eqn:E; bool_to_prop.
        - pose proof (days_in_month_pos (year cur + 1) 1).
          repeat match goal with
                 | |- context [?a <=? ?b] =>
                     replace (a <=? b) with true by (symmetry; apply Z.leb_le; lia)
                 end. reflexivity.
        - pose proof (days_in_month_pos (year cur) (month cur + 1)).
          repeat match goal with
                 | |- context [?a <=? ?b] =>
                     replace (a <=? b) with true by (symmetry; apply Z.leb_le; lia)
                 end. reflexivity. }
      rewrite Hnext. cbn [or_raise mbind outcome_bind].
      assert (Hn : first_of_month next /\ 1 <= month next <= 12 /\
                   MINYEAR <= year next <= MAXYEAR /\
                   month_index next = month_index cur + 1).
      { unfold next, first_of_month, month_index, MINYEAR, MAXYEAR in *.
        destruct (month cur =? 12) eqn:E; bool_to_prop; simpl; lia. }
      destruct Hn as (Hn1 & Hn2 & Hn3 & Hn4).
      destruct (IH next (<[fmt cur := mk_datetime (year cur) (month cur) 1 0]> acc)
                  Hn1 Hn2 Hn3 ltac:(lia) ltac:(lia)) as [IH1 IH2].
      split; [exact IH1|]. intros Hend _. apply IH2; [exact Hend | lia].
  - split; [intros _; now exists acc|].
    intros _ Hidx. exfalso.
    assert (Dates.leb cur end_date = true); [|congruence].
    apply leb_spec. unfold month_index in Hidx. lia.
Qed.

End FillOutcome.

Section ClockFacts.

Lemma date_mapping_my_cases (today : datetime) :
  Dates.valid today ->
  (year today < 9999 \/ month today < 12 ->
   exists m, Period.date_mapping_my today = Done m) /\
  (year today < 2023 -> Period.date_mapping_my today = Done ∅) /\
  (year today = 9999 -> month today = 12 ->
   Period.date_mapping_my today = Raised ValueError).
Proof.
  intros Hvalid. pose proof Hvalid as (Hy & Hm & Hd & Ht).
  unfold MINYEAR, MAXYEAR in *.
  destruct (fill_outcome strftime_my today Hvalid (Period.fuel_for today Period.start_date)
              Period.start_date ∅) as [H1 H2].
  - split; reflexivity.
  - cbn; lia.
  - unfold MINYEAR, MAXYEAR; cbn; lia.
  - apply fuel_for_enough.
  - unfold Period.fuel_for; lia.
  - split; [|split].
    + intros Hbefore. apply H1. unfold month_index, MAXYEAR. lia.
    + intros H2023. unfold Period.date_mapping_my, Period.fuel_for. cbn [Period.fill].
      replace (Dates.leb Period.start_date today) with false; [reflexivity|].
      symmetry. apply not_true_iff_false. rewrite leb_spec. cbn. lia.
    + intros H9999 H12. apply H2; unfold month_index, MAXYEAR; cbn; lia.
Qed.

Lemma precio_body (env : Loader.Env) :
  Pages.load_and_transform_data_precio_potencia env
  = Loader.try_except
      (if negb (Loader.file_path_exists env) then mret None
       else df ← Loader.pd_read_excel env;
            if Frame.empty df then mret None
            else Some <$> Reshape.transform_precio_potencia (Loader.today env) df).
Proof. reflexivity. Qed.

(** [precio_potencia.py]: the loader returns for every value of
    [datetime.today()].  With a clock before 2023 the dictionary of dates
    is empty and so is any table returned; in December 9999 the loop
    raises the [ValueError] of [replace(year=10000)] and the loader
    returns [None]. *)
Theorem precio_potencia_clock (env : Loader.Env) :
  Dates.valid (Loader.today env) ->
  (exists r, Pages.load_and_transform_data_precio_potencia env = Done r) /\
  (year (Loader.today env) < 2023 ->
   Period.date_mapping_my (Loader.today env) = Done ∅ /\
   forall long, Pages.load_and_transform_data_precio_potencia env = Done (Some long) ->
                long = []) /\
  (year (Loader.today env) = 9999 -> month (Loader.today env) = 12 ->
   Period.date_mapping_my (Loader.today env) = Raised ValueError /\
   Pages.load_and_transform_data_precio_potencia env = Done None).
Proof.
  intros Hvalid.
  destruct (date_mapping_my_cases _ Hvalid) as (Hdone & Hempty & Hraise).
  rewrite precio_body. unfold Reshape.transform_precio_potencia.
  generalize dependent (Period.date_mapping_my (Loader.today env)). intros dm Hdone Hempty Hraise.
  split; [|split].
  - apply try_except_Done.
    destruct (negb _); [discriminate|].
    apply bind_fuel.
    + unfold Loader.pd_read_excel. destruct (Loader.read_excel env); discriminate.
    + intros df. destruct (Frame.empty df); [discriminate|].
      apply fmap_fuel, transform_mapping_fuel.
      pose proof Hvalid as (Hy & Hm & _). unfold MAXYEAR in Hy.
      destruct (decide (year (Loader.today env) < 9999 \/ month (Loader.today env) < 12))
        as [Hb|Hb].
      * destruct (Hdone Hb) as (m & ->). discriminate.
      * rewrite Hraise by lia. discriminate.
  - intros H2023. split; [now apply Hempty|].
    rewrite (Hempty H2023). intros long Hlong.
    destruct (negb _); [discriminate|].
    unfold Loader.pd_read_excel in Hlong. destruct (Loader.read_excel env) as [e|df]; [discriminate|].
    cbn [mbind outcome_bind] in Hlong.
    destruct (Frame.empty df); [discriminate|].
    destruct (Reshape.transform_mapping _ _ _ df) as [long'| |] eqn:Ht; try discriminate.
    injection Hlong as <-.
    destruct long' as [|r long']; [reflexivity|]. exfalso.
    destruct (mapping_periodo _ _ _ _ _ r Ht ltac:(left)) as (m & d & [= <-] & Hget & _).
    unfold Period.lookup_my in Hget. rewrite lookup_empty in Hget. discriminate.
  - intros H9999 H12. split; [now apply Hraise|].
    rewrite (Hraise H9999 H12).
    destruct (negb _); [reflexivity|].
    unfold Loader.pd_read_excel. destruct (Loader.read_excel env) as [e|df]; [reflexivity|].
    cbn [mbind outcome_bind]. destruct (Frame.empty df); reflexivity.
Qed.

End ClockFacts.

Lemma precio_potencia_clock_witness :
  let env := Loader.mk_env true true
               (inr (mk_frame 1 (Some [Some "X"]) (Some [Some "A"])
                              [("Precio Potencia US$/kW 0123", [Num 1%Qc])]))
               (mk_datetime 9999 12 25 0) in
  Dates.valid (Loader.today env) /\
  Pages.load_and_transform_data_precio_potencia env = Done None.
Proof.
  intros env.
  assert (Hv : Dates.valid (Loader.today env)).
  { unfold Dates.valid, MINYEAR, MAXYEAR. vm_compute. intuition discriminate. }
  split; [exact Hv|].
  exact (proj2 (proj2 (proj2 (precio_potencia_clock env Hv)) eq_refl eq_refl)).
Defined.

(** ** When the loader returns a table *)

Section LoaderTable.

Lemma loader_table (label : string) (env : Loader.Env) :
  label ∈ [Reshape.label_energia; Reshape.label_potencia; Reshape.label_precio_potencia] ->
  let load :=
    Loader.try_except
      (if negb (Loader.base_path_exists env) then mret None
       else if negb (Loader.file_path_exists env) then mret None
       else df ← Loader.pd_read_excel env;
            if Frame.empty df then mret None
            else Some <$> Reshape.transform_mapping label Period.date_mapping_mY
                            Period.lookup_mY df) in
  ((exists long, load = Done (Some long)) <->
   Loader.base_path_exists env = true /\ Loader.file_path_exists env = true /\
   exists df, Loader.read_excel env = inr df /\ Frame.empty df = false /\
              columns_with label (strip_columns df) <> [] /\
              AGENTE_col df <> None /\ EMPRESA_col df <> None /\
              NoDup (columns_with label (strip_columns df))) /\
  ((forall long, load <> Done (Some long)) -> load = Done None).
Proof.
  intros Hlabel. destruct date_mapping_mY_spec as (m & -> & _). cbv zeta.
  pose proof (fun df => transform_mapping_outcome label m Period.lookup_mY df Hlabel) as Hout.
  unfold Loader.pd_read_excel.
  destruct (Loader.base_path_exists env); cbn [negb];
    [|split; [split; [intros (? & [=]) | intros ([=] & _)] | reflexivity]].
  destruct (Loader.file_path_exists env); cbn [negb];
    [|split; [split; [intros (? & [=]) | intros (_ & [=] & _)] | reflexivity]].
  destruct (Loader.read_excel env) as [e|df]; cbn [mbind outcome_bind];
    [split; [split; [intros (? & [=]) | intros (_ & _ & ? & [=] & _)] | reflexivity]|].
  destruct (Frame.empty df) eqn:Hempty;
    [split; [split; [intros (? & [=])
                    | intros (_ & _ & ? & [= <-] & Hne & _); congruence] | reflexivity]|].
  specialize (Hout df). cbv zeta in Hout. destruct Hout as (H1 & H2 & H3 & H4).
  destruct (decide (columns_with label (strip_columns df) = [])) as [Hcols|Hcols].
  { rewrite (H1 Hcols). split; [split; [intros (? & [=])|] | reflexivity].
    intros (_ & _ & ? & [= <-] & _ & Hne & _). contradiction. }
  destruct (decide (AGENTE_col df = None \/ EMPRESA_col df = None)) as [Hid|Hid].
  { rewrite (H2 Hcols Hid). split; [split; [intros (? & [=])|] | reflexivity].
    intros (_ & _ & ? & [= <-] & _ & _ & Ha & He & _). tauto. }
  assert (Ha : AGENTE_col df <> None) by tauto.
  assert (He : EMPRESA_col df <> None) by tauto.
  destruct (decide (NoDup (columns_with label (strip_columns df)))) as [Hnd|Hnd].
  - destruct (H4 Hcols Ha He Hnd) as (long & ->). split.
    + split; [|intros _; now eexists].
      intros _. repeat split. exists df. now repeat split.
    + intros Hno. now destruct (Hno long).
  - rewrite (H3 Ha He Hnd). split; [split; [intros (? & [=])|] | reflexivity].
    intros (_ & _ & ? & [= <-] & _ & _ & _ & _ & Hnd'). contradiction.
Qed.

(** [energia.py], [potencia.py]: the loader returns a table exactly
    when the data directory and the workbook exist, the workbook is read
    and is not empty, at least one header holds the label, the columns
    [AGENTE] and [EMPRESA] are there and no header with the label comes
    twice once stripped; in every other case it returns [None]. *)
Theorem loader_returns_table (env : Loader.Env) :
  ((exists long, Loader.load_and_transform_data_energia env = Done (Some long)) <->
   Loader.base_path_exists env = true /\ Loader.file_path_exists env = true /\
   exists df, Loader.read_excel env = inr df /\ Frame.empty df = false /\
              columns_with Reshape.label_energia (strip_columns df) <> [] /\
              AGENTE_col df <> None /\ EMPRESA_col df <> None /\
              NoDup (columns_with Reshape.label_energia (strip_columns df))) /\
  ((forall long, Loader.load_and_transform_data_energia env <> Done (Some long)) ->
   Loader.load_and_transform_data_energia env = Done None) /\
  ((exists long, Pages.load_and_transform_data_potencia env = Done (Some long)) <->
   Loader.base_path_exists env = true /\ Loader.file_path_exists env = true /\
   exists df, Loader.read_excel env = inr df /\ Frame.empty df = false /\
              columns_with Reshape.label_potencia (strip_columns df) <> [] /\
              AGENTE_col df <> None /\ EMPRESA_col df <> None /\
              NoDup (columns_with Reshape.label_potencia (strip_columns df))) /\
  ((forall long, Pages.load_and_transform_data_potencia env <> Done (Some long)) ->
   Pages.load_and_transform_data_potencia env = Done None).
Proof.
  pose proof (loader_table Reshape.label_energia env ltac:(left)) as [E1 E2].
  pose proof (loader_table Reshape.label_potencia env ltac:(right; left)) as [P1 P2].
  split; [exact E1|]. split; [exact E2|]. split; [exact P1 | exact P2].
Qed.

End LoaderTable.

Example split_header : PyStr.split "  Peaje USD/MWh   012023 " = ["Peaje"; "USD/MWh"; "012023"].
Proof. reflexivity. Qed.

Example int_plus : PyStr.int "+1" = Some 1.
Proof. reflexivity. Qed.

Example int_under : PyStr.int "2_23" = Some 223.
Proof. reflexivity. Qed.

Example mapping_jan23 :
  (m ← Period.date_mapping_mY; Done (Period.lookup_mY m "012023")) = Done (Some (mk_datetime 2023 1 1 0)).
Proof. vm_compute. reflexivity. Qed.

Example peaje_1999 : Period.peaje_date "011999" = Some (mk_datetime 1999 1 1 0).
Proof. reflexivity. Qed.
